(** * LinkedIn company URL mass finder: a shallow embedding

    The development follows the layout of the scraper:
    - [PyStr]: the Python [str] methods the sources call;
    - [Urllib]: [urllib.parse] ([urlparse], [urlunparse], [parse_qs]) as
      CPython 3.11 implements them;
    - [ResultParser]: [utils/result_parser.py];
    - [PaginationHandler]: [utils/pagination_handler.py];
    - [Builtins]: [int()], [float()], slicing and [urlencode];
    - [Searcher]: [utils/linkedin_search.py], as computations over the
      outside world that record what they request, log and sleep;
    - [Scripted]: an instance of the parameters that answers requests from
      a script, for the examples.

    A Python [str] is a Rocq [string]; a character stands for a code point
    below 256.  A Python [int] is a [Z]; a Python [float] is a binary64
    [spec_float].  What the sources take from libraries and cannot be
    written down here is a parameter, gathered in the classes [UrllibExt],
    [PyBuiltins] and [Network]; BeautifulSoup is seen through the anchors
    it finds. *)

From Stdlib Require Import ZArith String Ascii List Lia Bool.
From Stdlib Require Import Floats.SpecFloat.
From stdpp Require Import base option strings gmap list pretty.

Open Scope string_scope.
Open Scope list_scope.
Open Scope Z_scope.

(** ** Exceptions and results *)

Inductive PyExc : Type :=
| ValueError
| TypeError
| OverflowError
| AttributeError
| KeyError.

Inductive result (A : Type) : Type :=
| Ok (a : A)
| Raise (e : PyExc).
Arguments Ok {A} a.
Arguments Raise {A} e.

#[global] Instance result_ret : MRet result := fun A a => Ok a.
#[global] Instance result_bind : MBind result := fun A B f m =>
  match m with
  | Ok a => f a
  | Raise e => Raise e
  end.

Definition is_ok {A : Type} (r : result A) : bool :=
  match r with Ok _ => true | Raise _ => false end.

(** ** Python string methods *)

Module PyStr.

Definition code (c : ascii) : N := N_of_ascii c.

Definition is_ascii_upper (c : ascii) : bool :=
  ((65 <=? code c) && (code c <=? 90))%N.
Definition is_ascii_lower (c : ascii) : bool :=
  ((97 <=? code c) && (code c <=? 122))%N.
Definition is_ascii_alpha (c : ascii) : bool :=
  is_ascii_upper c || is_ascii_lower c.
Definition is_ascii_digit (c : ascii) : bool :=
  ((48 <=? code c) && (code c <=? 57))%N.

(** [c.lower()] on the ASCII letters. *)
Definition lower_char (c : ascii) : ascii :=
  if is_ascii_upper c then ascii_of_N (code c + 32) else c.

Fixpoint map_chars (f : ascii -> ascii) (s : string) : string :=
  match s with
  | "" => ""
  | String c s' => String (f c) (map_chars f s')
  end.

Fixpoint forall_chars (p : ascii -> bool) (s : string) : bool :=
  match s with
  | "" => true
  | String c s' => p c && forall_chars p s'
  end.

Fixpoint filter_chars (keep : ascii -> bool) (s : string) : string :=
  match s with
  | "" => ""
  | String c s' =>
      if keep c then String c (filter_chars keep s') else filter_chars keep s'
  end.

(** [c in s] for a single character. *)
Fixpoint has_char (c : ascii) (s : string) : bool :=
  match s with
  | "" => false
  | String a s' => Ascii.eqb a c || has_char c s'
  end.

(** [s.startswith(p)] *)
Definition startswith (s p : string) : bool := String.prefix p s.

(** [sub in s] *)
Fixpoint contains (sub s : string) : bool :=
  String.prefix sub s ||
  match s with
  | "" => false
  | String _ s' => contains sub s'
  end.

(** [s.split(c, 1)] when [c in s]: the text before and after the first
    occurrence of [c]; [None] when [c] does not occur. *)
Fixpoint split1 (c : ascii) (s : string) : option (string * string) :=
  match s with
  | "" => None
  | String a s' =>
      if Ascii.eqb a c then Some ("", s')
      else match split1 c s' with
           | Some (l, r) => Some (String a l, r)
           | None => None
           end
  end.

(** [s.split(c)] *)
Fixpoint split (c : ascii) (s : string) : list string :=
  match s with
  | "" => [""]
  | String a s' =>
      if Ascii.eqb a c then "" :: split c s'
      else match split c s' with
           | w :: ws => String a w :: ws
           | [] => [String a ""]
           end
  end.

(** [s.replace(a, b)] for single characters. *)
Definition replace_char (a b : ascii) (s : string) : string :=
  map_chars (fun c => if Ascii.eqb c a then b else c) s.

(** [s.endswith(c)] for a single character. *)
Fixpoint endswith_char (c : ascii) (s : string) : bool :=
  match s with
  | "" => false
  | String a "" => Ascii.eqb a c
  | String _ s' => endswith_char c s'
  end.

(** [s.rstrip(c)]: every trailing [c] is removed. *)
Fixpoint rstrip (c : ascii) (s : string) : string :=
  match s with
  | "" => ""
  | String a s' =>
      match rstrip c s' with
      | "" => if Ascii.eqb a c then "" else String a ""
      | r => String a r
      end
  end.

(** [s.lstrip(chars)], the set of characters given as a predicate. *)
Fixpoint lstrip (p : ascii -> bool) (s : string) : string :=
  match s with
  | "" => ""
  | String a s' => if p a then lstrip p s' else s
  end.

(** The longest prefix whose characters all satisfy [p], and the rest. *)
Fixpoint span (p : ascii -> bool) (s : string) : string * string :=
  match s with
  | "" => ("", "")
  | String a s' =>
      if p a then let '(l, r) := span p s' in (String a l, r)
      else ("", s)
  end.

(** Python's whitespace among the code points below 256, for
    [str.strip()]. *)
Definition is_py_space (c : ascii) : bool :=
  (((9 <=? code c) && (code c <=? 13)) ||
   ((28 <=? code c) && (code c <=? 32)) ||
   (code c =? 133) || (code c =? 160))%N.

Fixpoint rstrip_p (p : ascii -> bool) (s : string) : string :=
  match s with
  | "" => ""
  | String a s' =>
      match rstrip_p p s' with
      | "" => if p a then "" else String a ""
      | r => String a r
      end
  end.

(** [s.strip()] *)
Definition strip (s : string) : string :=
  rstrip_p is_py_space (lstrip is_py_space s).

End PyStr.

(** ** urllib.parse *)

(** The two parts of [urllib.parse] that are kept as parameters: the
    decoding of percent escapes inside [unquote] (a UTF-8 decoder), and the
    validation of a bracketed host inside [urlsplit] (an IP address
    parser). *)
Class UrllibExt := {
  unquote_escapes : string -> string;
  bracketed_netloc_ok : string -> bool;
}.

Module Urllib.
Import PyStr.

Record ParseResult := mkParseResult {
  scheme : string;
  netloc : string;
  path : string;
  params : string;
  query : string;
  fragment : string;
}.

Record SplitResult := mkSplitResult {
  s_scheme : string;
  s_netloc : string;
  s_path : string;
  s_query : string;
  s_fragment : string;
}.

Definition uses_params : list string :=
  [""; "ftp"; "hdl"; "prospero"; "http"; "imap"; "https"; "shttp"; "rtsp";
   "rtspu"; "sip"; "sips"; "mms"; "sftp"; "tel"].

Definition uses_netloc : list string :=
  [""; "ftp"; "http"; "gopher"; "nntp"; "telnet"; "imap"; "wais"; "file";
   "mms"; "https"; "shttp"; "snews"; "prospero"; "rtsp"; "rtspu"; "rsync";
   "svn"; "svn+ssh"; "sftp"; "nfs"; "git"; "git+ssh"; "ws"; "wss"].

Definition in_list (s : string) (l : list string) : bool :=
  existsb (String.eqb s) l.

(** [scheme_chars]: letters, digits and ["+-."]. *)
Definition is_scheme_char (c : ascii) : bool :=
  is_ascii_alpha c || is_ascii_digit c ||
  Ascii.eqb c "+" || Ascii.eqb c "-" || Ascii.eqb c ".".

(** [_WHATWG_C0_CONTROL_OR_SPACE] *)
Definition is_c0_or_space (c : ascii) : bool := (code c <=? 32)%N.

(** [_UNSAFE_URL_BYTES_TO_REMOVE]: tab, carriage return, line feed. *)
Definition is_unsafe_byte (c : ascii) : bool :=
  ((code c =? 9) || (code c =? 13) || (code c =? 10))%N.

Definition is_netloc_delim (c : ascii) : bool :=
  Ascii.eqb c "/" || Ascii.eqb c "?" || Ascii.eqb c "#".

(** The scheme test of [urlsplit]: the text before the first [':'] is a
    scheme when it is not empty, starts with an ASCII letter and holds
    scheme characters only. *)
Definition split_scheme (url : string) : string * string :=
  match split1 ":" url with
  | Some (String c0 pre', rest) =>
      if is_ascii_alpha c0 && forall_chars is_scheme_char (String c0 pre')
      then (map_chars lower_char (String c0 pre'), rest)
      else ("", url)
  | _ => ("", url)
  end.

(** [_splitnetloc(url, 2)] *)
Definition _splitnetloc (url : string) : string * string :=
  match url with
  | String "/" (String "/" rest) => span (fun c => negb (is_netloc_delim c)) rest
  | _ => ("", url)
  end.

Section WithExt.
Context `{UrllibExt}.

(** The netloc checks of [urlsplit]: unbalanced brackets raise
    [ValueError]; a bracketed host must be a valid IP literal.
    [_checknetloc] only rejects characters whose NFKC form holds one of
    ["/?#@:"], and no code point below 256 has such a form. *)
Definition check_netloc (nl : string) : bool :=
  let lb := has_char "[" nl in
  let rb := has_char "]" nl in
  if (lb && negb rb) || (rb && negb lb) then false
  else if lb && rb then bracketed_netloc_ok nl
  else true.

Definition urlsplit (url : string) : result SplitResult :=
  let url := lstrip is_c0_or_space url in
  let url := filter_chars (fun c => negb (is_unsafe_byte c)) url in
  let '(scheme, url) := split_scheme url in
  let has_netloc := startswith url "//" in
  let '(netloc, url) := if has_netloc then _splitnetloc url else ("", url) in
  if has_netloc && negb (check_netloc netloc) then Raise ValueError else
  let '(url, fragment) :=
    match split1 "#" url with
    | Some (u, f) => (u, f)
    | None => (url, "")
    end in
  let '(url, query) :=
    match split1 "?" url with
    | Some (u, q) => (u, q)
    | None => (url, "")
    end in
  Ok (mkSplitResult scheme netloc url query fragment).

(** [url.find(';', url.rfind('/'))]-based split of the last path
    segment: [split_last_segment] finds the text up to and including
    the last ['/']. *)
Fixpoint split_last_slash (s : string) : string * string :=
  match s with
  | "" => ("", "")
  | String a s' =>
      let '(l, r) := split_last_slash s' in
      if has_char "/" s' then (String a l, r)
      else if Ascii.eqb a "/" then ("/", s')
      else ("", s)
  end.

Definition _splitparams (url : string) : string * string :=
  if has_char "/" url then
    (* the search for [';'] starts at the last ['/'] *)
    let '(dir, seg) := split_last_slash url in
    match split1 ";" seg with
    | Some (l, r) => (dir +:+ l, r)
    | None => (url, "")
    end
  else
    match split1 ";" url with
    | Some (l, r) => (l, r)
    | None => (url, "")   (* not reached: the caller tested [';' in url] *)
    end.

Definition urlparse (url : string) : result ParseResult :=
  sr ← urlsplit url;
  let '(url, params) :=
    if in_list (s_scheme sr) uses_params && has_char ";" (s_path sr)
    then _splitparams (s_path sr)
    else (s_path sr, "") in
  Ok (mkParseResult (s_scheme sr) (s_netloc sr) url params
                    (s_query sr) (s_fragment sr)).

Definition urlunsplit (sr : SplitResult) : string :=
  let url := s_path sr in
  let url :=
    if negb (String.eqb (s_netloc sr) "") ||
       (negb (String.eqb (s_scheme sr) "") &&
        in_list (s_scheme sr) uses_netloc &&
        negb (startswith url "//"))
    then
      let url :=
        if negb (String.eqb url "") && negb (startswith url "/")
        then "/" +:+ url else url in
      "//" +:+ s_netloc sr +:+ url
    else url in
  let url :=
    if negb (String.eqb (s_scheme sr) "")
    then s_scheme sr +:+ ":" +:+ url else url in
  let url :=
    if negb (String.eqb (s_query sr) "")
    then url +:+ "?" +:+ s_query sr else url in
  if negb (String.eqb (s_fragment sr) "")
  then url +:+ "#" +:+ s_fragment sr else url.

Definition urlunparse (p : ParseResult) : string :=
  let url :=
    if negb (String.eqb (params p) "")
    then path p +:+ ";" +:+ params p else path p in
  urlunsplit (mkSplitResult (scheme p) (netloc p) url (query p) (fragment p)).

(** [unquote]: a string without ['%'] is returned as it is. *)
Definition unquote (s : string) : string :=
  if has_char "%" s then unquote_escapes s else s.

(** [parse_qsl(qs)] with the default arguments: fields are separated by
    ['&'], a field without ['='] or with an empty value is dropped. *)
Definition parse_qsl (qs : string) : list (string * string) :=
  omap (fun name_value =>
          match split1 "=" name_value with
          | Some (n, v) =>
              if String.eqb v "" then None
              else Some (unquote (replace_char "+" " " n),
                         unquote (replace_char "+" " " v))
          | None => None
          end)
       (split "&" qs).

(** [parse_qs(qs)]: the values of each name, in order. *)
Definition parse_qs (qs : string) : gmap string (list string) :=
  foldl (fun (parsed_result : gmap string (list string)) '(name, value) =>
           match parsed_result !! name with
           | Some vs => <[name := vs ++ [value]]> parsed_result
           | None => <[name := [value]]> parsed_result
           end)
        ∅ (parse_qsl qs).

End WithExt.
End Urllib.

(** ** utils/result_parser.py *)

(** A result record: the dictionary with the keys [title], [link] and
    [searchQuery]. *)
Record ResultRecord := mkRecord {
  title : string;
  link : string;
  searchQuery : string;
}.

#[global] Instance ResultRecord_eq_dec : EqDecision ResultRecord.
Proof. solve_decision. Defined.

(** An [<a>] element as BeautifulSoup hands it over: [anchor.get("href")]
    and [anchor.get_text(strip=True)]. *)
Record Anchor := mkAnchor {
  href : option string;
  text : string;
}.

(** A fetched document, seen through [soup.find_all("a")]: its anchors in
    document order. *)
Definition Html := list Anchor.

Module ResultParser.
Import PyStr Urllib.

Section WithExt.
Context `{UrllibExt}.

(** Lines 25-33 of [_normalize_linkedin_url]: parse the raw target and,
    for a target that is neither on a linkedin.com netloc nor starts
    with ["http"], take the first [q] (else [url]) query value as the
    URL to parse. *)
Definition candidate_list (parsed : ParseResult) : list string :=
  let query := parse_qs (Urllib.query parsed) in
  match query !! "q" with
  | Some (c :: cs) => c :: cs
  | _ => match query !! "url" with
         | Some (c :: cs) => c :: cs
         | _ => []
         end
  end.

Definition is_redirect_wrapper (raw_url : string) (parsed : ParseResult) : bool :=
  negb (contains "linkedin.com" (netloc parsed)) &&
  negb (startswith raw_url "http").

Definition select_candidate (raw_url : string) : result ParseResult :=
  parsed ← urlparse raw_url;
  if is_redirect_wrapper raw_url parsed then
    match candidate_list parsed with
    | c :: _ => urlparse c
    | [] => Ok parsed
    end
  else Ok parsed.

(** Lines 43-44: the URL without query and fragment. *)
Definition clean_url (parsed : ParseResult) : string :=
  urlunparse (mkParseResult (scheme parsed) (netloc parsed) (path parsed)
                            (params parsed) "" "").

(** Lines 47-48. *)
Definition strip_trailing_slashes (normalized : string) : string :=
  if endswith_char "/" normalized then rstrip "/" normalized
  else normalized.

(** Lines 35-50: what is made of the URL that was selected. *)
Definition canonical_of (parsed : ParseResult) : option string :=
  if negb (contains "linkedin.com" (netloc parsed)) then None else
  if negb (contains "/company/" (path parsed)) then None else
  Some (strip_trailing_slashes (clean_url parsed)).

Definition _normalize_linkedin_url (raw_url : string) : result (option string) :=
  if String.eqb raw_url "" then Ok None else
  parsed ← select_candidate raw_url;
  Ok (canonical_of parsed).

(** [extract_linkedin_results]: one record per anchor whose target
    normalizes to a company profile, in document order.  A target on
    which [urlparse] raises ends the extraction with that exception. *)
Fixpoint extract_linkedin_results (html : Html) (search_query : string)
  : result (list ResultRecord) :=
  match html with
  | [] => Ok []
  | anchor :: rest =>
      match href anchor with
      | None | Some "" => extract_linkedin_results rest search_query
      | Some h =>
          normalized ← _normalize_linkedin_url h;
          match normalized with
          | None | Some "" => extract_linkedin_results rest search_query
          | Some l =>
              let title_text :=
                if String.eqb (text anchor) "" then search_query
                else text anchor in
              results ← extract_linkedin_results rest search_query;
              Ok (mkRecord title_text l search_query :: results)
          end
      end
  end.

End WithExt.
End ResultParser.

(** ** utils/pagination_handler.py *)

Module PaginationHandler.

Definition calculate_offset (page per_page : Z) : Z :=
  let page := if page <? 1 then 1 else page in
  let per_page := if per_page <? 1 then 1 else per_page in
  (page - 1) * per_page.

(** [range(start, stop)] *)
Definition py_range (start stop : Z) : list Z :=
  map (fun i => start + Z.of_nat i) (seq 0 (Z.to_nat (stop - start))).

(** The pages the generator yields, in order. *)
Definition iter_pages (start_page max_pages : Z) : list Z :=
  let start_page := if start_page <? 1 then 1 else start_page in
  let max_pages := if max_pages <? 1 then 1 else max_pages in
  let end_page := start_page + max_pages in
  py_range start_page end_page.

End PaginationHandler.

(** ** Python values and built-ins *)

Set Warnings "-register-all".

(** The values [json.load] can put into the settings dictionary. *)
Inductive PyVal : Type :=
| VNone
| VBool (b : bool)
| VInt (n : Z)
| VFloat (f : spec_float)
| VStr (s : string)
| VList (l : list PyVal)
| VDict (d : list (string * PyVal)).

(** Built-ins that are kept as parameters: the parsers behind [int(str)]
    and [float(str)], the format mini-language of [str.format], and the
    rendering of a value that is not a string inside an f-string. *)
Class PyBuiltins := {
  int_of_str : string -> option Z;
  float_of_str : string -> option spec_float;
  str_format : string -> string -> result string;
  str_of_val : PyVal -> string;
}.

Module Builtins.

(** [int(f)] for a float: truncation toward zero. *)
Definition int_of_float (f : spec_float) : result Z :=
  match f with
  | S754_zero _ => Ok 0
  | S754_infinity _ => Raise OverflowError
  | S754_nan => Raise ValueError
  | S754_finite s m e =>
      let a := if 0 <=? e then Z.pos m * 2 ^ e else Z.pos m / 2 ^ (- e) in
      Ok (if s then - a else a)
  end.

(** [float(n)] for an int: the nearest binary64, [OverflowError] beyond
    its range. *)
Definition float_of_int (n : Z) : result spec_float :=
  match binary_normalize 53 1024 n 0 false with
  | S754_infinity _ => Raise OverflowError
  | f => Ok f
  end.

Section WithBuiltins.
Context `{PyBuiltins}.

(** [int(v)] *)
Definition py_int (v : PyVal) : result Z :=
  match v with
  | VInt n => Ok n
  | VBool b => Ok (if b then 1 else 0)
  | VFloat f => int_of_float f
  | VStr s => match int_of_str s with
              | Some n => Ok n
              | None => Raise ValueError
              end
  | VNone | VList _ | VDict _ => Raise TypeError
  end.

(** [float(v)] *)
Definition py_float (v : PyVal) : result spec_float :=
  match v with
  | VFloat f => Ok f
  | VInt n => float_of_int n
  | VBool b => float_of_int (if b then 1 else 0)
  | VStr s => match float_of_str s with
              | Some f => Ok f
              | None => Raise ValueError
              end
  | VNone | VList _ | VDict _ => Raise TypeError
  end.

(** [f"{v}"] *)
Definition fstring (v : PyVal) : string :=
  match v with
  | VStr s => s
  | _ => str_of_val v
  end.

(** [v.format(company=company)]: only a [str] has the method. *)
Definition format_company (v : PyVal) (company : string) : result string :=
  match v with
  | VStr template => str_format template company
  | _ => Raise AttributeError
  end.

End WithBuiltins.

(** [l[:n]] *)
Definition py_slice_to {A : Type} (n : Z) (l : list A) : list A :=
  if 0 <=? n then take (Z.to_nat n) l
  else take (Z.to_nat (Z.of_nat (length l) + n)) l.

(** [quote_plus] on one character: unreserved characters stay, a space
    becomes ['+'], anything else is the percent escape of its UTF-8
    bytes. *)
Definition hex_digit (n : N) : ascii :=
  if (n <? 10)%N then ascii_of_N (48 + n) else ascii_of_N (55 + n).

Definition percent_byte (b : N) : string :=
  String "%" (String (hex_digit (b / 16)) (String (hex_digit (b mod 16)) "")).

Definition is_unreserved (c : ascii) : bool :=
  PyStr.is_ascii_alpha c || PyStr.is_ascii_digit c ||
  Ascii.eqb c "_" || Ascii.eqb c "." || Ascii.eqb c "-" || Ascii.eqb c "~".

Definition quote_plus_char (c : ascii) : string :=
  let n := PyStr.code c in
  if is_unreserved c then String c ""
  else if Ascii.eqb c " " then "+"
  else if (n <? 128)%N then percent_byte n
  else percent_byte (192 + n / 64) +:+ percent_byte (128 + n mod 64).

Fixpoint quote_plus (s : string) : string :=
  match s with
  | "" => ""
  | String c s' => quote_plus_char c +:+ quote_plus s'
  end.

Fixpoint join (sep : string) (l : list string) : string :=
  match l with
  | [] => ""
  | [x] => x
  | x :: xs => x +:+ sep +:+ join sep xs
  end.

(** [urlencode(params)] for a dictionary of strings, in insertion
    order. *)
Definition urlencode (params : list (string * string)) : string :=
  join "&" (map (fun '(k, v) => quote_plus k +:+ "=" +:+ quote_plus v) params).

End Builtins.

(** ** utils/linkedin_search.py *)

(** What [session.get] followed by [raise_for_status] can do: hand over the
    body, raise a [requests.RequestException] (connection error, timeout,
    status that is not a success), or raise something else. *)
Inductive FetchOutcome : Type :=
| Body (html : Html)
| RequestException
| OtherException (e : PyExc).

(** The outside world: the network behind the session and the clock behind
    [time.sleep]. *)
Class Network := {
  World : Type;
  session_get : World -> PyVal -> string -> Z -> World * FetchOutcome;
  time_sleep : World -> spec_float -> World * result unit;
}.

(** The messages the searcher and the parser hand to their loggers. *)
Inductive LogMsg : Type :=
| MsgStarting (company : string)
| MsgSearching (company : string)
| MsgBuiltUrl (company : string) (page : Z) (url : string)
| MsgFetching (url : string)
| MsgRequestFailed (company : string) (page : Z)
| MsgParserExtracted (count : nat) (search_query : string)
| MsgPage (page : Z) (company : string) (found new : nat)
| MsgReachedLimit (limit : Z) (company : string)
| MsgNoNewResults (company : string) (page : Z)
| MsgFound (count : nat) (company : string)
| MsgUnexpected (company : string) (e : PyExc).

(** What the searcher does to the outside world, in order. *)
Inductive Event : Type :=
| EvLog (msg : LogMsg)
| EvGet (url : string) (timeout : Z) (outcome : FetchOutcome)
| EvSleep (secs : spec_float).

Module Searcher.
Import PyStr Builtins ResultParser PaginationHandler.

Record SearchConfig := mkSearchConfig {
  search_engine : PyVal;
  query_template : PyVal;
  request_timeout_seconds : Z;
  request_delay_seconds : spec_float;
  user_agent : PyVal;
}.

(** The defaults of the dataclass. *)
Definition default_search_engine : PyVal := VStr "https://www.bing.com/search".
Definition default_query_template : PyVal :=
  VStr "site:linkedin.com/company {company}".
Definition default_request_timeout_seconds : PyVal := VInt 10.
Definition default_request_delay_seconds : PyVal := VFloat (SFone 53 1024).
Definition default_user_agent : PyVal :=
  VStr "Mozilla/5.0 (compatible; LinkedInCompanyURLMassFinder/1.0)".

(** [d.get(key, dflt)] *)
Definition dict_get (d : gmap string PyVal) (key : string) (dflt : PyVal) : PyVal :=
  default dflt (d !! key).

Section Init.
Context `{PyBuiltins}.

(** [LinkedInCompanySearcher.__init__]: the configuration it builds.
    The session only stores the header values. *)
Definition __init__ (settings : option (gmap string PyVal)) : result SearchConfig :=
  let settings := default ∅ settings in
  timeout ← py_int (dict_get settings "request_timeout_seconds"
                             default_request_timeout_seconds);
  delay ← py_float (dict_get settings "request_delay_seconds"
                             default_request_delay_seconds);
  Ok (mkSearchConfig
        (dict_get settings "search_engine" default_search_engine)
        (dict_get settings "query_template" default_query_template)
        timeout delay
        (dict_get settings "user_agent" default_user_agent)).
End Init.

(** The per-name state of the search loop. *)
Record SearchState := mkSearchState {
  all_results : list ResultRecord;
  seen_links : gset string;
}.

(** The de-duplication loop over one page: the new items in order, and
    the links seen afterwards. *)
Fixpoint dedupe (page_results : list ResultRecord) (seen : gset string)
  : list ResultRecord * gset string :=
  match page_results with
  | [] => ([], seen)
  | item :: rest =>
      if String.eqb (link item) "" then dedupe rest seen
      else if bool_decide (link item ∈ seen) then dedupe rest seen
      else let '(new_items, seen') := dedupe rest ({[link item]} ∪ seen) in
           (item :: new_items, seen')
  end.

(** Lines 129-147: the state after a page whose records are
    [page_results]. *)
Definition state_after (page_results : list ResultRecord) (st : SearchState)
  : SearchState :=
  mkSearchState (all_results st ++ (dedupe page_results (seen_links st)).1)
                (dedupe page_results (seen_links st)).2.

Section WithWorld.
Context `{UrllibExt} `{PyBuiltins} `{Network}.

(** The world and the events so far. *)
Record Sys := mkSys {
  world : World;
  trace : list Event;
}.

(** Computations that act on the world and may raise. *)
Definition M (A : Type) : Type := Sys -> Sys * result A.

#[export] Instance M_ret : MRet M := fun A a sys => (sys, Ok a).
#[export] Instance M_bind : MBind M := fun A B f m sys =>
  match m sys with
  | (sys', Ok a) => f a sys'
  | (sys', Raise e) => (sys', Raise e)
  end.

Definition lift {A : Type} (r : result A) : M A := fun sys => (sys, r).

Definition emit (e : Event) : M unit := fun sys =>
  (mkSys (world sys) (trace sys ++ [e]), Ok tt).

Definition log (msg : LogMsg) : M unit := emit (EvLog msg).

Variable config : SearchConfig.

Definition _build_search_url (company : string) (page results_per_page : Z)
  : M string :=
  let offset := calculate_offset page results_per_page in
  query ← lift (format_company (query_template config) company);
  let params := [("q", query);
                 ("first", pretty (offset + 1));
                 ("count", pretty results_per_page)] in
  let url := fstring (search_engine config) +:+ "?" +:+ urlencode params in
  _ ← log (MsgBuiltUrl company page url);
  mret url.

(** The URL that [_build_search_url] returns once the query is
    formatted. *)
Definition search_url (query : string) (page results_per_page : Z) : string :=
  fstring (search_engine config) +:+ "?" +:+
  urlencode [("q", query);
             ("first", pretty (calculate_offset page results_per_page + 1));
             ("count", pretty results_per_page)].

(** [_fetch_page] inside the [try] of [search_company]: [Some] body,
    [None] for a [RequestException], or another exception. *)
Definition session_get_text (url : string) : M (option Html) := fun sys =>
  let timeout := request_timeout_seconds config in
  let '(w, outcome) := session_get (world sys) (user_agent config) url timeout in
  let sys' := mkSys w (trace sys ++ [EvGet url timeout outcome]) in
  match outcome with
  | Body html => (sys', Ok (Some html))
  | RequestException => (sys', Ok None)
  | OtherException e => (sys', Raise e)
  end.

Definition _fetch_page (url : string) : M (option Html) :=
  _ ← log (MsgFetching url);
  session_get_text url.

Definition sleep (secs : spec_float) : M unit := fun sys =>
  let '(w, r) := time_sleep (world sys) secs in
  (mkSys w (trace sys ++ [EvSleep secs]), r).

Section PerCompany.
Variables (company : string) (results_per_company : Z).

(** Lines 123-166: what one page does to the state once its body is
    there, and whether the loop goes on ([true]) or breaks. *)
Definition process_page (page : Z) (html : Html) (st : SearchState)
  : M (SearchState * bool) :=
  page_results ← lift (extract_linkedin_results html company);
  _ ← log (MsgParserExtracted (length page_results) company);
  let '(new_items, seen) := dedupe page_results (seen_links st) in
  _ ← log (MsgPage page company (length page_results) (length new_items));
  let st' := mkSearchState (all_results st ++ new_items) seen in
  if results_per_company <=? Z.of_nat (length (all_results st')) then
    _ ← log (MsgReachedLimit results_per_company company);
    mret (st', false)
  else if bool_decide (new_items = []) then
    _ ← log (MsgNoNewResults company page);
    mret (st', false)
  else
    _ ← sleep (request_delay_seconds config);
    mret (st', true).

(** The [for] loop over the pages that are left; leaving the
    recursion is [break] or the end of the pages. *)
Fixpoint page_loop (pages : list Z) (st : SearchState) : M SearchState :=
  match pages with
  | [] => mret st
  | page :: rest =>
      url ← _build_search_url company page results_per_company;
      fetched ← _fetch_page url;
      match fetched with
      | None =>
          _ ← log (MsgRequestFailed company page);
          mret st
      | Some html =>
          '(st', continue) ← process_page page html st;
          if continue : bool then page_loop rest st' else mret st'
      end
  end.

Definition search_company (start_page max_pages : Z) : M (list ResultRecord) :=
  _ ← log (MsgSearching company);
  st ← page_loop (iter_pages start_page max_pages) (mkSearchState [] ∅);
  let limited_results := py_slice_to results_per_company (all_results st) in
  _ ← log (MsgFound (length limited_results) company);
  mret limited_results.

End PerCompany.

(** The loop of [search_for_companies]: an exception of one company is
    caught and logged, and the loop goes on with the next one. *)
Fixpoint companies_loop (companies : list string)
    (results_per_company start_page max_pages : Z)
    (combined_results : list ResultRecord) (sys : Sys)
  : Sys * list ResultRecord :=
  match companies with
  | [] => (sys, combined_results)
  | company :: rest =>
      let company := strip company in
      if String.eqb company "" then
        companies_loop rest results_per_company start_page max_pages
                       combined_results sys
      else
        let run :=
          _ ← log (MsgStarting company);
          search_company company results_per_company start_page max_pages in
        match run sys with
        | (sys', Ok company_results) =>
            companies_loop rest results_per_company start_page max_pages
                           (combined_results ++ company_results) sys'
        | (sys', Raise e) =>
            companies_loop rest results_per_company start_page max_pages
                           combined_results
                           (mkSys (world sys')
                                  (trace sys' ++ [EvLog (MsgUnexpected company e)]))
        end
  end.

Definition search_for_companies (companies : list string)
    (results_per_company start_page max_pages : Z) (sys : Sys)
  : Sys * list ResultRecord :=
  companies_loop companies results_per_company start_page max_pages [] sys.

End WithWorld.
End Searcher.

(** ** A scripted environment

    Concrete instances of the parameters, for the examples: the network
    answers the requests from a script, one outcome per request, and the
    sleep does not wait. *)

Module Scripted.

#[export] Instance urllib_ext : UrllibExt := {|
  unquote_escapes := fun s => s;
  bracketed_netloc_ok := fun _ => false;
|}.

(** [template.format(company=company)] for a template with one
    [{company}] field and no other brace. *)
Definition format_one_field (template company : string) : result string :=
  match String.index 0 "{company}" template with
  | Some i =>
      Ok (String.substring 0 i template +:+ company +:+
          String.substring (i + 9) (String.length template - (i + 9)) template)
  | None => Ok template
  end.

#[export] Instance builtins : PyBuiltins := {|
  int_of_str := fun _ => None;
  float_of_str := fun _ => None;
  str_format := format_one_field;
  str_of_val := fun _ => "";
|}.

(** [time.sleep] without the waiting: a negative or NaN length raises
    [ValueError], an infinite one [OverflowError]. *)
Definition sleep_at_once (secs : spec_float) : result unit :=
  match secs with
  | S754_nan => Raise ValueError
  | S754_infinity false => Raise OverflowError
  | _ => if SFltb secs (S754_zero false) then Raise ValueError else Ok tt
  end.

#[export] Instance network : Network := {|
  World := list FetchOutcome;
  session_get := fun w _ _ _ =>
    match w with
    | o :: w' => (w', o)
    | [] => ([], RequestException)
    end;
  time_sleep := fun w secs => (w, sleep_at_once secs);
|}.

Definition default_config : Searcher.SearchConfig :=
  Searcher.mkSearchConfig
    Searcher.default_search_engine Searcher.default_query_template
    10 (SFone 53 1024) Searcher.default_user_agent.

Definition start (script : list FetchOutcome) : Searcher.Sys :=
  Searcher.mkSys script [].

Definition anchor (target label : string) : Anchor :=
  mkAnchor (Some target) label.

(** Three result pages for the name "Acme". *)
Definition page_one : Html :=
  [anchor "https://www.linkedin.com/company/acme" "Acme"].

Definition page_one_again : Html :=
  [anchor "https://www.linkedin.com/company/acme/?trk=serp" "Acme Inc"].

Definition page_of_three : Html :=
  [anchor "https://www.linkedin.com/company/acme" "Acme";
   anchor "/url?q=https://www.linkedin.com/company/acme-labs/&sa=U" "Acme Labs";
   anchor "https://www.linkedin.com/company/acme?trk=serp" "Acme again";
   anchor "https://www.example.com/about" "About";
   anchor "https://www.linkedin.com/company/acme-corp" ""].

Definition acme : ResultRecord :=
  mkRecord "Acme" "https://www.linkedin.com/company/acme" "Acme".
Definition acme_labs : ResultRecord :=
  mkRecord "Acme Labs" "https://www.linkedin.com/company/acme-labs" "Acme".
Definition acme_corp : ResultRecord :=
  mkRecord "Acme" "https://www.linkedin.com/company/acme-corp" "Acme".


End Scripted.

(** ** The specification's wording of the claims that the code refines *)

Module Claims.
Import PyStr Urllib ResultParser.

(** The values of one name in a parsed query, in order. *)
Definition values_of (name : string) (pairs : list (string * string)) : list string :=
  omap (fun '(n, v) => if String.eqb n name then Some v else None) pairs.

(** "Strip exactly one trailing path separator if present." *)
Fixpoint drop_last (s : string) : string :=
  match s with
  | "" => ""
  | String _ "" => ""
  | String a s' => String a (drop_last s')
  end.

Definition strip_one_separator (s : string) : string :=
  if endswith_char "/" s then drop_last s else s.

(** [n] path separators. *)
Fixpoint slashes (n : nat) : string :=
  match n with
  | O => ""
  | S n' => String "/" (slashes n')
  end.

Section WithExt.
Context `{UrllibExt}.

(** "The target is not an absolute URL": it has no scheme. *)
Definition is_absolute_url (raw_url : string) : bool :=
  match urlparse raw_url with
  | Ok parsed => negb (String.eqb (scheme parsed) "")
  | Raise _ => false
  end.

(** The redirect rule as the specification words it: a target whose
    netloc does not mention the domain and which is not an absolute URL
    is replaced by its [q] (else [url]) value. *)
Definition unwraps_every_relative_target : Prop :=
  forall raw_url parsed c cs,
    raw_url <> "" ->
    urlparse raw_url = Ok parsed ->
    contains "linkedin.com" (netloc parsed) = false ->
    is_absolute_url raw_url = false ->
    candidate_list parsed = c :: cs ->
    _normalize_linkedin_url raw_url = (p ← urlparse c; Ok (canonical_of p)).

(** The trailing-separator rule as the specification words it. *)
Definition strips_exactly_one_separator : Prop :=
  forall raw_url s,
    _normalize_linkedin_url raw_url = Ok (Some s) ->
    exists parsed,
      select_candidate raw_url = Ok parsed /\
      s = strip_one_separator (clean_url parsed).

(** Idempotence as the specification words it. *)
Definition normalization_is_idempotent : Prop :=
  forall raw_url s,
    _normalize_linkedin_url raw_url = Ok (Some s) ->
    _normalize_linkedin_url s = Ok (Some s).

End WithExt.
End Claims.

(** ** The specification's wording of the searcher's contract *)

Module SearcherClaims.
Import Searcher.

(** The type the specification gives to each optional key: a string for
    the endpoint, the template and the header value, an integer for the
    timeout, a number for the delay. *)
Definition has_expected_type (key : string) (v : PyVal) : bool :=
  if String.eqb key "request_timeout_seconds" then
    match v with VInt _ => true | _ => false end
  else if String.eqb key "request_delay_seconds" then
    match v with VInt _ | VFloat _ => true | _ => false end
  else
    match v with VStr _ => true | _ => false end.

Definition optional_keys : list string :=
  ["search_engine"; "query_template"; "request_timeout_seconds";
   "request_delay_seconds"; "user_agent"].

Definition has_invalid_type (settings : gmap string PyVal) : bool :=
  existsb (fun key => match settings !! key with
                      | Some v => negb (has_expected_type key v)
                      | None => false
                      end)
          optional_keys.

(** "Invalid types fail fast with an error rather than being coerced." *)
Definition rejects_invalid_types `{PyBuiltins} : Prop :=
  forall settings,
    has_invalid_type settings = true ->
    exists e, __init__ (Some settings) = Raise e.

(** The cap on a name's result count, for every requested cap. *)
Definition caps_every_request `{UrllibExt} `{PyBuiltins} `{Network}
    (config : SearchConfig) : Prop :=
  forall company results_per_company start_page max_pages sys sys' res,
    search_company config company results_per_company start_page max_pages sys
    = (sys', Ok res) ->
    Z.of_nat (length res) <= results_per_company.

End SearcherClaims.

(** ** The shape of what [urlsplit] returns *)

Module UrlShape.
Import PyStr Urllib.

Definition is_safe_char (c : ascii) : bool := negb (is_unsafe_byte c).

(** A scheme character as [urlsplit] returns it: lower case. *)
Definition is_lower_scheme_char (c : ascii) : bool :=
  is_scheme_char c && negb (is_ascii_upper c).

Definition is_netloc_char (c : ascii) : bool :=
  is_safe_char c && negb (is_netloc_delim c).

Definition is_path_char (c : ascii) : bool :=
  is_safe_char c && negb (Ascii.eqb c "?") && negb (Ascii.eqb c "#").

Definition well_formed_scheme (scheme : string) : bool :=
  match scheme with
  | "" => true
  | String c _ => is_ascii_lower c && forall_chars is_lower_scheme_char scheme
  end.

(** The text of [url] before and after the first [c]. *)
Definition before (c : ascii) (url : string) : string :=
  match split1 c url with
  | Some (l, _) => l
  | None => url
  end.

Definition after (c : ascii) (url : string) : string :=
  match split1 c url with
  | Some (_, r) => r
  | None => ""
  end.

(** What [urlunsplit] puts in front of the netloc. *)
Definition scheme_prefix (scheme : string) : string :=
  if String.eqb scheme "" then "//" else scheme +:+ "://".

(** The path with its parameters, as [urlunparse] joins them. *)
Definition joined_path (path params : string) : string :=
  if String.eqb params "" then path else path +:+ ";" +:+ params.

End UrlShape.

(** ** Reading a trace *)

Module Trace.
Import ResultParser.

(** The bodies that were fetched, in order. *)
Definition bodies (evs : list Event) : list Html :=
  omap (fun e => match e with
                 | EvGet _ _ (Body html) => Some html
                 | _ => None
                 end) evs.

(** The outcomes of the requests that were made, in order. *)
Definition outcomes (evs : list Event) : list FetchOutcome :=
  omap (fun e => match e with
                 | EvGet _ _ o => Some o
                 | _ => None
                 end) evs.

(** The records of a fetched page, in document order. *)
Definition page_records `{UrllibExt} (company : string) (html : Html)
  : list ResultRecord :=
  match extract_linkedin_results html company with
  | Ok records => records
  | Raise _ => []
  end.

(** Every record of every fetched page: page after page, and in document
    order within a page. *)
Definition fetched_records `{UrllibExt} (company : string) (evs : list Event)
  : list ResultRecord :=
  mjoin (page_records company <$> bodies evs).

(** The first record with a given link. *)
Fixpoint first_with_link (l : string) (records : list ResultRecord)
  : option ResultRecord :=
  match records with
  | [] => None
  | r :: rest =>
      if String.eqb (link r) l then Some r else first_with_link l rest
  end.

End Trace.

(** ** main.py *)

(** What opening the input file or reading its lines can raise: an
    [OSError] (no permission, a device error) or, for bytes that are not
    UTF-8, a [UnicodeDecodeError]. *)
Inductive ReadFailure : Type :=
| RaisesOSError
| RaisesUnicodeDecodeError.

(** What [read_company_names] raises: its own [FileNotFoundError], what
    [open] or the iteration over the lines raises, and its own
    [ValueError] for a file without names, here [NoCompanyNames]. *)
Inductive ReadError : Type :=
| FileNotFoundError
| ReadFailed (e : ReadFailure)
| NoCompanyNames.

(** The input file as [read_company_names] meets it: the path is not a
    file; or opening it, or reading and decoding one of its lines,
    raises; or every line is read. *)
Inductive InputFile : Type :=
| NotAFile
| Unreadable (e : ReadFailure)
| Readable (lines : list string).

Module Main.
Import PyStr Builtins.

(** [read_company_names].  An exception of [open] or of the iteration is
    not caught, so it leaves the function whatever was read before.  The
    names are the stripped lines that are not empty; a file without any
    raises [ValueError]. *)
Definition read_company_names (input_file : InputFile)
  : ReadError + list string :=
  match input_file with
  | NotAFile => inl FileNotFoundError
  | Unreadable e => inl (ReadFailed e)
  | Readable lines =>
      let companies :=
        omap (fun line => let name := strip line in
                          if String.eqb name "" then None else Some name)
             lines in
      match companies with
      | [] => inl NoCompanyNames
      | _ => inr companies
      end
  end.

End Main.

(** ** Reading the requests and the extraction *)

Module Reading.
Import PyStr Builtins ResultParser.

(** The number of requests among the events. *)
Definition requests (evs : list Event) : nat := length (Trace.outcomes evs).

(** The number of sleeps among the events. *)
Definition sleeps (evs : list Event) : nat :=
  length (omap (fun e => match e with
                         | EvSleep secs => Some secs
                         | _ => None
                         end) evs).

(** What [extract_linkedin_results] makes of one anchor when its target
    parses: a record, or nothing. *)
Definition record_of_anchor `{UrllibExt} (search_query : string) (anchor : Anchor)
  : option ResultRecord :=
  match href anchor with
  | None | Some "" => None
  | Some h =>
      match _normalize_linkedin_url h with
      | Ok (Some (String c l)) =>
          Some (mkRecord (if String.eqb (text anchor) "" then search_query
                          else text anchor)
                         (String c l) search_query)
      | _ => None
      end
  end.

(** The anchor makes [urlparse] raise. *)
Definition anchor_raises `{UrllibExt} (anchor : Anchor) : bool :=
  match href anchor with
  | None | Some "" => false
  | Some h => negb (is_ok (_normalize_linkedin_url h))
  end.

(** The links of the accumulation are pairwise distinct, and the set of
    seen links holds exactly them. *)
Definition in_sync (st : Searcher.SearchState) : Prop :=
  Searcher.seen_links st = list_to_set (link <$> Searcher.all_results st) /\
  NoDup (link <$> Searcher.all_results st).

(** The characters [quote_plus] writes. *)
Definition is_quoted_char (c : ascii) : bool :=
  is_unreserved c || Ascii.eqb c "+" || Ascii.eqb c "%".

End Reading.

(** * Theorems *)

(** ** Pagination *)

Section PaginationFacts.
Import PaginationHandler.

Lemma calculate_offset_max (page per_page : Z) :
  calculate_offset page per_page = (Z.max page 1 - 1) * Z.max per_page 1.
Proof.
  unfold calculate_offset.
  destruct (Z.ltb_spec page 1), (Z.ltb_spec per_page 1);
    rewrite ?Z.max_l, ?Z.max_r by lia; reflexivity.
Qed.

(** C8. For page >= 1 and per_page >= 1 the offset is
    (page - 1) * per_page; an argument below 1 is replaced by 1; the
    function is total, so the call cannot fail. *)
Theorem calculate_offset_clamps (page per_page : Z) :
  (1 <= page -> 1 <= per_page ->
   calculate_offset page per_page = (page - 1) * per_page) /\
  (page < 1 -> calculate_offset page per_page = calculate_offset 1 per_page) /\
  (per_page < 1 -> calculate_offset page per_page = calculate_offset page 1) /\
  calculate_offset page per_page = (Z.max page 1 - 1) * Z.max per_page 1.
Proof.
  split; [| split; [| split]]; try apply calculate_offset_max;
    intros; unfold calculate_offset;
    repeat match goal with
           | |- context [?a <? ?b] => destruct (Z.ltb_spec a b)
           end; try reflexivity; lia.
Qed.

Lemma calculate_offset_clamps_witness :
  calculate_offset 3 10 = (3 - 1) * 10 /\
  calculate_offset 0 10 = calculate_offset 1 10 /\
  calculate_offset 3 (-2) = calculate_offset 3 1.
Proof.
  split; [| split].
  - apply (proj1 (calculate_offset_clamps 3 10)); lia.
  - apply (proj1 (proj2 (calculate_offset_clamps 0 10))); lia.
  - apply (proj1 (proj2 (proj2 (calculate_offset_clamps 3 (-2))))); lia.
Defined.

End PaginationFacts.

(** ** Strings *)

Section StringFacts.
Import PyStr Claims.
#[local] Arguments String.append !_ _ / : simpl nomatch.

Lemma append_nil_r (s : string) : s +:+ "" = s.
Proof. induction s; simpl; congruence. Qed.

Lemma append_assoc (a b c : string) : (a +:+ b) +:+ c = a +:+ (b +:+ c).
Proof. induction a; simpl; congruence. Qed.

Lemma endswith_char_cons (c a : ascii) (s : string) :
  s <> "" -> endswith_char c (String a s) = endswith_char c s.
Proof. destruct s; [congruence | reflexivity]. Qed.

Lemma rstrip_not_endswith (c : ascii) (s : string) :
  endswith_char c (rstrip c s) = false.
Proof.
  induction s as [| a s IH]; [reflexivity |].
  simpl. destruct (rstrip c s) as [| b r] eqn:E.
  - destruct (Ascii.eqb a c) eqn:Ea; [reflexivity |]. simpl. exact Ea.
  - rewrite endswith_char_cons by discriminate. exact IH.
Qed.

(** [rstrip] removes a run of trailing separators and nothing else. *)
Lemma rstrip_slashes (s : string) :
  exists n, s = rstrip "/" s +:+ slashes n.
Proof.
  induction s as [| a s [n IH]]; [exists O; reflexivity |].
  simpl. destruct (rstrip "/" s) as [| b r] eqn:E.
  - destruct (Ascii.eqb_spec a "/") as [-> | Hne].
    + exists (S n). simpl. simpl in IH. congruence.
    + exists n. simpl. simpl in IH. congruence.
  - exists n. simpl. simpl in IH. rewrite <- IH. reflexivity.
Qed.

Lemma rstrip_id (c : ascii) (s : string) :
  endswith_char c s = false -> rstrip c s = s.
Proof.
  induction s as [| a s IH]; [reflexivity |].
  destruct s as [| b s'].
  - simpl. intros ->. reflexivity.
  - intros E. rewrite endswith_char_cons in E by discriminate.
    change (rstrip c (String a (String b s')))
      with (match rstrip c (String b s') with
            | "" => if Ascii.eqb a c then "" else String a ""
            | r => String a r
            end).
    rewrite (IH E). reflexivity.
Qed.

Lemma rstrip_app_char (c : ascii) (s : string) :
  rstrip c (s +:+ String c "") = rstrip c s.
Proof.
  induction s as [| a s IH]; simpl.
  - rewrite Ascii.eqb_refl. reflexivity.
  - rewrite IH. reflexivity.
Qed.

Lemma endswith_char_app_char (c : ascii) (s : string) :
  endswith_char c (s +:+ String c "") = true.
Proof.
  induction s as [| a s IH]; simpl.
  - apply Ascii.eqb_refl.
  - destruct (s +:+ String c "") eqn:E; [destruct s; discriminate | exact IH].
Qed.

End StringFacts.

(** ** Normalization of link targets *)

Section NormalizationFacts.
Import PyStr Urllib ResultParser Claims.
Context `{UrllibExt}.
#[local] Arguments String.append !_ _ / : simpl nomatch.

Lemma normalize_inv (raw_url s : string) :
  _normalize_linkedin_url raw_url = Ok (Some s) ->
  raw_url <> "" /\
  exists parsed, select_candidate raw_url = Ok parsed /\
                 canonical_of parsed = Some s.
Proof.
  unfold _normalize_linkedin_url.
  destruct (String.eqb_spec raw_url "") as [-> | Hne]; [discriminate |].
  destruct (select_candidate raw_url) as [parsed | e]; simpl; [| discriminate].
  intros [= E]. split; [exact Hne |]. exists parsed. split; [reflexivity | exact E].
Qed.

Lemma canonical_of_inv (parsed : ParseResult) (s : string) :
  canonical_of parsed = Some s ->
  contains "linkedin.com" (netloc parsed) = true /\
  contains "/company/" (path parsed) = true /\
  s = strip_trailing_slashes (clean_url parsed).
Proof.
  unfold canonical_of.
  destruct (contains "linkedin.com" (netloc parsed)); simpl; [| discriminate].
  destruct (contains "/company/" (path parsed)); simpl; [| discriminate].
  intros [= <-]. repeat split.
Qed.

Lemma strip_trailing_slashes_rstrip (c : string) :
  strip_trailing_slashes c = rstrip "/" c.
Proof.
  unfold strip_trailing_slashes.
  destruct (endswith_char "/" c) eqn:E; [reflexivity |].
  symmetry. apply rstrip_id. exact E.
Qed.

(** The values of a name in [parse_qs] are its values in [parse_qsl]. *)
Lemma parse_qs_lookup (qs name : string) :
  parse_qs qs !! name =
  match values_of name (parse_qsl qs) with
  | [] => None
  | vs => Some vs
  end.
Proof.
  unfold parse_qs.
  set (step := fun (parsed_result : gmap string (list string)) '(n, v) =>
                 match parsed_result !! n with
                 | Some vs => <[n := vs ++ [v]]> parsed_result
                 | None => <[n := [v]]> parsed_result
                 end).
  assert (G : forall l (m : gmap string (list string)),
             foldl step m l !! name =
             match values_of name l with
             | [] => m !! name
             | vs => Some (default [] (m !! name) ++ vs)
             end).
  { induction l as [| [n v] l IH]; intros m; [reflexivity |].
    simpl. rewrite IH. unfold values_of at 2. simpl.
    fold (values_of name l).
    destruct (String.eqb_spec n name) as [-> | Hne]; simpl.
    - destruct (m !! name) as [vs |] eqn:E; simpl;
        rewrite lookup_insert_eq; simpl;
        destruct (values_of name l); rewrite <- ?app_assoc; reflexivity.
    - destruct (m !! n) as [vs |] eqn:E; simpl;
        rewrite lookup_insert_ne by exact Hne; reflexivity. }
  rewrite G, lookup_empty. simpl. reflexivity.
Qed.

(** The candidates are the values of [q], or those of [url] when [q] has
    none. *)
Lemma candidate_list_values (parsed : ParseResult) :
  candidate_list parsed =
  match values_of "q" (parse_qsl (query parsed)) with
  | [] => values_of "url" (parse_qsl (query parsed))
  | vs => vs
  end.
Proof.
  unfold candidate_list. rewrite !parse_qs_lookup.
  destruct (values_of "q" (parse_qsl (query parsed))); [| reflexivity].
  destruct (values_of "url" (parse_qsl (query parsed))); reflexivity.
Qed.

(** C5 (amended). For every raw target whose netloc does not contain
    "linkedin.com" and which does not begin with "http", normalization
    parses the query and goes on with the first value of [q] (of [url]
    when [q] has no value) as the URL; without such a value the target is
    rejected.  The wrapped link of Scenario A normalizes to the company
    URL. *)
Theorem redirect_wrapper_unwrapped :
  (forall raw_url parsed,
      raw_url <> "" ->
      urlparse raw_url = Ok parsed ->
      contains "linkedin.com" (netloc parsed) = false ->
      startswith raw_url "http" = false ->
      _normalize_linkedin_url raw_url =
      match values_of "q" (parse_qsl (query parsed)),
            values_of "url" (parse_qsl (query parsed)) with
      | c :: _, _ | [], c :: _ => p ← urlparse c; Ok (canonical_of p)
      | [], [] => Ok None
      end) /\
  _normalize_linkedin_url "/url?q=https://www.linkedin.com/company/acme/&extra=1"
  = Ok (Some "https://www.linkedin.com/company/acme").
Proof.
  split; [| vm_compute; reflexivity].
  intros raw_url parsed Hne Hparse Hnet Hhttp.
  unfold _normalize_linkedin_url, select_candidate.
  destruct (String.eqb_spec raw_url "") as [-> | _]; [congruence |].
  rewrite Hparse. simpl.
  unfold is_redirect_wrapper. rewrite Hnet, Hhttp. simpl.
  rewrite candidate_list_values.
  destruct (values_of "q" (parse_qsl (query parsed))) as [| c cs].
  - destruct (values_of "url" (parse_qsl (query parsed))) as [| c cs].
    + simpl. unfold canonical_of. rewrite Hnet. reflexivity.
    + destruct (urlparse c); reflexivity.
  - destruct (urlparse c); reflexivity.
Qed.

(** C6 (amended). Normalization strips every trailing path separator of
    the cleaned URL, not just one: the canonical link is the cleaned URL
    without its run of trailing separators and never ends in one.  A
    cleaned URL that ends in a single separator loses exactly that one,
    and ".../company/acme/" and ".../company/acme" normalize
    identically. *)
Theorem trailing_separators_stripped :
  (forall raw_url s,
      _normalize_linkedin_url raw_url = Ok (Some s) ->
      exists parsed n,
        select_candidate raw_url = Ok parsed /\
        clean_url parsed = s +:+ slashes n /\
        endswith_char "/" s = false /\
        (forall t, clean_url parsed = t +:+ "/" ->
                   endswith_char "/" t = false -> s = t)) /\
  _normalize_linkedin_url "https://www.linkedin.com/company/acme/"
  = Ok (Some "https://www.linkedin.com/company/acme") /\
  _normalize_linkedin_url "https://www.linkedin.com/company/acme"
  = Ok (Some "https://www.linkedin.com/company/acme").
Proof.
  split; [| split; vm_compute; reflexivity].
  intros raw_url s Hn.
  destruct (normalize_inv _ _ Hn) as [_ [parsed [Hsel Hcan]]].
  destruct (canonical_of_inv _ _ Hcan) as [_ [_ ->]].
  rewrite strip_trailing_slashes_rstrip.
  destruct (rstrip_slashes (clean_url parsed)) as [n Hn'].
  exists parsed, n. repeat split.
  - exact Hsel.
  - exact Hn'.
  - apply rstrip_not_endswith.
  - intros t Ht Hend. rewrite Ht, rstrip_app_char. apply rstrip_id. exact Hend.
Qed.

End NormalizationFacts.

(** ** The search loop *)

Section DedupeFacts.
Import Searcher Trace.

Lemma dedupe_app (l1 l2 : list ResultRecord) (seen : gset string) :
  dedupe (l1 ++ l2) seen =
  ((dedupe l1 seen).1 ++ (dedupe l2 (dedupe l1 seen).2).1,
   (dedupe l2 (dedupe l1 seen).2).2).
Proof.
  revert seen. induction l1 as [| item l1 IH]; intros seen; simpl.
  - destruct (dedupe l2 seen); reflexivity.
  - destruct (String.eqb (link item) ""); [apply IH |].
    destruct (bool_decide (link item ∈ seen)); [apply IH |].
    rewrite IH. destruct (dedupe l1 ({[link item]} ∪ seen)); reflexivity.
Qed.

(** What [dedupe] lets through: links that are not empty, not seen
    before, and pairwise distinct. *)
Lemma dedupe_new (l : list ResultRecord) (seen : gset string) :
  NoDup (link <$> (dedupe l seen).1) /\
  (forall r, r ∈ (dedupe l seen).1 -> link r <> "" /\ link r ∉ seen) /\
  (dedupe l seen).2 = seen ∪ list_to_set (link <$> (dedupe l seen).1).
Proof.
  revert seen. induction l as [| item l IH]; intros seen; simpl.
  - split; [constructor |]. split; [intros r Hr; inversion Hr | set_solver].
  - destruct (String.eqb_spec (link item) "") as [E | Hne]; [apply IH |].
    destruct (bool_decide_reflect (link item ∈ seen)) as [Hin | Hnin]; [apply IH |].
    destruct (IH ({[link item]} ∪ seen)) as [Hnd [Hfresh Hseen]].
    destruct (dedupe l ({[link item]} ∪ seen)) as [new_items seen'] eqn:E.
    simpl in *. split; [| split].
    + constructor; [| exact Hnd].
      intros Hin. apply list_elem_of_fmap in Hin as [r [Hr Hin]].
      destruct (Hfresh r Hin) as [_ Hn]. set_solver.
    + intros r Hr. apply elem_of_cons in Hr as [-> | Hr]; [split; assumption |].
      destruct (Hfresh r Hr) as [H1 H2]. split; [exact H1 | set_solver].
    + rewrite Hseen. set_solver.
Qed.

Lemma dedupe_sublist (l : list ResultRecord) (seen : gset string) :
  (dedupe l seen).1 `sublist_of` l.
Proof.
  revert seen. induction l as [| item l IH]; intros seen; simpl.
  - constructor.
  - destruct (String.eqb (link item) ""); [apply sublist_cons, IH |].
    destruct (bool_decide (link item ∈ seen)); [apply sublist_cons, IH |].
    specialize (IH ({[link item]} ∪ seen)).
    destruct (dedupe l ({[link item]} ∪ seen)). simpl in *.
    apply sublist_skip, IH.
Qed.

(** Each record that [dedupe] lets through is the first one with its
    link. *)
Lemma dedupe_first (l : list ResultRecord) (seen : gset string) (r : ResultRecord) :
  r ∈ (dedupe l seen).1 -> first_with_link (link r) l = Some r.
Proof.
  revert seen. induction l as [| item l IH]; intros seen; simpl.
  - intros Hr. inversion Hr.
  - destruct (String.eqb_spec (link item) "") as [E | Hne].
    + intros Hr. destruct (proj1 (proj2 (dedupe_new l seen)) r Hr) as [H1 _].
      destruct (String.eqb_spec (link item) (link r)); [congruence |].
      apply (IH seen Hr).
    + destruct (bool_decide_reflect (link item ∈ seen)) as [Hin | Hnin].
      * intros Hr. destruct (proj1 (proj2 (dedupe_new l seen)) r Hr) as [_ H2].
        destruct (String.eqb_spec (link item) (link r)); [congruence |].
        apply (IH seen Hr).
      * pose proof (proj1 (proj2 (dedupe_new l ({[link item]} ∪ seen)))) as Hfresh.
        specialize (IH ({[link item]} ∪ seen)).
        destruct (dedupe l ({[link item]} ∪ seen)) as [new_items seen'].
        simpl in *. intros Hr. apply elem_of_cons in Hr as [-> | Hr].
        -- rewrite String.eqb_refl. reflexivity.
        -- destruct (Hfresh r Hr) as [_ H2].
           destruct (String.eqb_spec (link item) (link r)); [set_solver |].
           apply (IH Hr).
Qed.

End DedupeFacts.

Section LoopFacts.
Import PyStr Builtins ResultParser PaginationHandler Searcher Trace.
Context `{UrllibExt} `{PyBuiltins} `{Network}.
Variable config : SearchConfig.

Lemma log_run (msg : LogMsg) sys :
  log msg sys = (mkSys (world sys) (trace sys ++ [EvLog msg]), Ok tt).
Proof. reflexivity. Qed.

Lemma build_search_url_run company page rpp sys :
  _build_search_url config company page rpp sys =
  match format_company (query_template config) company with
  | Ok query =>
      let url := search_url config query page rpp in
      (mkSys (world sys) (trace sys ++ [EvLog (MsgBuiltUrl company page url)]),
       Ok url)
  | Raise e => (sys, Raise e)
  end.
Proof.
  unfold _build_search_url, mbind, M_bind, lift.
  destruct (format_company (query_template config) company); reflexivity.
Qed.

Lemma fetch_page_run url sys :
  _fetch_page config url sys =
  let timeout := request_timeout_seconds config in
  let '(w, outcome) := session_get (world sys) (user_agent config) url timeout in
  let sys' := mkSys w (trace sys ++ [EvLog (MsgFetching url);
                                    EvGet url timeout outcome]) in
  match outcome with
  | Body html => (sys', Ok (Some html))
  | RequestException => (sys', Ok None)
  | OtherException e => (sys', Raise e)
  end.
Proof.
  unfold _fetch_page, mbind, M_bind, session_get_text. rewrite log_run. simpl.
  destruct (session_get (world sys) (user_agent config) url
                        (request_timeout_seconds config)) as [w o].
  rewrite <- app_assoc. simpl. destruct o; reflexivity.
Qed.

Section PerCompany.
Variables (company : string) (results_per_company : Z).

Lemma process_page_run page html st sys :
  process_page config company results_per_company page html st sys =
  match extract_linkedin_results html company with
  | Raise e => (sys, Raise e)
  | Ok page_results =>
      let new_items := (dedupe page_results (seen_links st)).1 in
      let st' := state_after page_results st in
      let logged :=
        trace sys ++
        [EvLog (MsgParserExtracted (length page_results) company);
         EvLog (MsgPage page company (length page_results) (length new_items))] in
      if results_per_company <=? Z.of_nat (length (all_results st')) then
        (mkSys (world sys)
               (logged ++ [EvLog (MsgReachedLimit results_per_company company)]),
         Ok (st', false))
      else if bool_decide (new_items = []) then
        (mkSys (world sys) (logged ++ [EvLog (MsgNoNewResults company page)]),
         Ok (st', false))
      else
        match time_sleep (world sys) (request_delay_seconds config) with
        | (w, Ok _) =>
            (mkSys w (logged ++ [EvSleep (request_delay_seconds config)]),
             Ok (st', true))
        | (w, Raise e) =>
            (mkSys w (logged ++ [EvSleep (request_delay_seconds config)]),
             Raise e)
        end
  end.
Proof.
  unfold process_page, state_after, mbind, M_bind, lift.
  destruct (extract_linkedin_results html company) as [page_results | e];
    [| reflexivity].
  rewrite log_run.
  destruct (dedupe page_results (seen_links st)) as [new_items seen] eqn:E.
  rewrite log_run. cbn [world trace fst snd all_results].
  rewrite <- !app_assoc. cbn [app].
  destruct (results_per_company <=? Z.of_nat (length (all_results st ++ new_items))).
  { rewrite log_run. cbn [world trace mret M_ret].
    rewrite <- !app_assoc. reflexivity. }
  destruct (bool_decide (new_items = [])).
  { rewrite log_run. cbn [world trace mret M_ret].
    rewrite <- !app_assoc. reflexivity. }
  unfold sleep. cbn [world trace].
  destruct (time_sleep (world sys) (request_delay_seconds config)) as [w [[] | e]];
    rewrite <- !app_assoc; reflexivity.
Qed.

Lemma page_loop_cons page rest st sys :
  page_loop config company results_per_company (page :: rest) st sys =
  match format_company (query_template config) company with
  | Raise e => (sys, Raise e)
  | Ok query =>
      let url := search_url config query page results_per_company in
      let timeout := request_timeout_seconds config in
      let '(w, outcome) :=
        session_get (world sys) (user_agent config) url timeout in
      let sys2 :=
        mkSys w (trace sys ++ [EvLog (MsgBuiltUrl company page url);
                               EvLog (MsgFetching url);
                               EvGet url timeout outcome]) in
      match outcome with
      | RequestException =>
          (mkSys w (trace sys2 ++ [EvLog (MsgRequestFailed company page)]),
           Ok st)
      | OtherException e => (sys2, Raise e)
      | Body html =>
          match process_page config company results_per_company page html st sys2 with
          | (sys3, Ok (st', true)) =>
              page_loop config company results_per_company rest st' sys3
          | (sys3, Ok (st', false)) => (sys3, Ok st')
          | (sys3, Raise e) => (sys3, Raise e)
          end
      end
  end.
Proof.
  cbn [page_loop]. unfold mbind at 1. unfold M_bind at 1.
  rewrite build_search_url_run.
  destruct (format_company (query_template config) company) as [query | e];
    [| reflexivity].
  cbn zeta. unfold mbind at 1. unfold M_bind at 1.
  rewrite fetch_page_run. cbn [world trace].
  destruct (session_get (world sys) (user_agent config)
              (search_url config query page results_per_company)
              (request_timeout_seconds config)) as [w outcome].
  rewrite <- !app_assoc. cbn [app].
  destruct outcome as [html | | e]; cbn zeta; [| | reflexivity].
  - unfold mbind at 1. unfold M_bind at 1.
    destruct (process_page config company results_per_company page html st _)
      as [sys3 [[st' []] | e]]; reflexivity.
  - unfold mbind, M_bind. rewrite log_run. cbn [world trace].
    rewrite <- !app_assoc. reflexivity.
Qed.

Lemma state_after_nil st : state_after [] st = st.
Proof. destruct st. unfold state_after. simpl. rewrite app_nil_r. reflexivity. Qed.

Lemma state_after_app l1 l2 st :
  state_after (l1 ++ l2) st = state_after l2 (state_after l1 st).
Proof.
  unfold state_after. rewrite dedupe_app. simpl. rewrite app_assoc. reflexivity.
Qed.

Lemma fetched_records_app d1 d2 :
  fetched_records company (d1 ++ d2) =
  fetched_records company d1 ++ fetched_records company d2.
Proof.
  unfold fetched_records, bodies. rewrite omap_app, fmap_app, join_app.
  reflexivity.
Qed.

(** The loop only adds events, and its final state is the state after
    the records of the pages it fetched, taken in order. *)
Lemma page_loop_inv pages : forall st sys sys' st',
  page_loop config company results_per_company pages st sys = (sys', Ok st') ->
  exists delta,
    trace sys' = trace sys ++ delta /\
    st' = state_after (fetched_records company delta) st.
Proof.
  induction pages as [| page rest IH]; intros st sys sys' st'.
  - intros [= <- <-]. exists []. rewrite app_nil_r, state_after_nil. auto.
  - rewrite page_loop_cons.
    destruct (format_company (query_template config) company) as [query | e];
      [| discriminate].
    cbn zeta.
    destruct (session_get _ _ _ _) as [w [html | | e]]; [| | discriminate].
    + rewrite process_page_run. cbn [world trace].
      destruct (extract_linkedin_results html company) as [page_results | e] eqn:Ex;
        [| discriminate].
      cbn zeta.
      assert (Hrec : forall pre post,
                 fetched_records company
                   (pre :: EvLog (MsgFetching (search_url config query page
                                                 results_per_company)) ::
                    EvGet (search_url config query page results_per_company)
                          (request_timeout_seconds config) (Body html) :: post) =
                 fetched_records company [pre] ++ page_results ++
                 fetched_records company post).
      { intros pre post.
        change (pre :: ?a :: ?b :: post) with ([pre] ++ [a; b] ++ post).
        rewrite !fetched_records_app. f_equal. f_equal.
        unfold fetched_records, page_records. simpl. rewrite Ex.
        apply app_nil_r. }
      destruct (results_per_company <=? _).
      { intros [= <- <-]. eexists. cbn [trace]. rewrite <- !app_assoc.
        split; [reflexivity |]. cbn [app]. rewrite Hrec. simpl.
        rewrite app_nil_r. reflexivity. }
      destruct (bool_decide _).
      { intros [= <- <-]. eexists. cbn [trace]. rewrite <- !app_assoc.
        split; [reflexivity |]. cbn [app]. rewrite Hrec. simpl.
        rewrite app_nil_r. reflexivity. }
      destruct (time_sleep w (request_delay_seconds config)) as [w' [[] | e]];
        [| discriminate].
      intros Hloop. destruct (IH _ _ _ _ Hloop) as [delta [Htr ->]].
      cbn [trace] in Htr. rewrite <- !app_assoc in Htr. cbn [app] in Htr.
      eexists. split; [exact Htr |].
      rewrite Hrec.
      change (EvLog ?a :: EvLog ?b :: EvSleep ?c :: delta)
        with ([EvLog a; EvLog b; EvSleep c] ++ delta).
      rewrite fetched_records_app. simpl.
      rewrite state_after_app. reflexivity.
    + intros [= <- <-]. eexists. cbn [trace]. rewrite <- !app_assoc.
      split; [reflexivity |]. cbn. rewrite state_after_nil. reflexivity.
Qed.

Lemma search_company_run start_page max_pages sys :
  search_company config company results_per_company start_page max_pages sys =
  match page_loop config company results_per_company
                  (iter_pages start_page max_pages) (mkSearchState [] ∅)
                  (mkSys (world sys) (trace sys ++ [EvLog (MsgSearching company)]))
  with
  | (sys1, Ok st) =>
      let limited_results := py_slice_to results_per_company (all_results st) in
      (mkSys (world sys1)
             (trace sys1 ++ [EvLog (MsgFound (length limited_results) company)]),
       Ok limited_results)
  | (sys1, Raise e) => (sys1, Raise e)
  end.
Proof.
  unfold search_company, mbind, M_bind. rewrite log_run.
  destruct (page_loop _ _ _ _ _ _) as [sys1 [st | e]]; reflexivity.
Qed.

Lemma py_slice_to_take {A : Type} (n : Z) (l : list A) :
  exists k, py_slice_to n l = take k l.
Proof. unfold py_slice_to. destruct (0 <=? n); eexists; reflexivity. Qed.

(** The result of [search_company] is a slice of the de-duplicated
    records of the pages fetched during the call. *)
Lemma search_company_inv start_page max_pages sys sys' res :
  search_company config company results_per_company start_page max_pages sys
  = (sys', Ok res) ->
  res = py_slice_to results_per_company
          (dedupe (fetched_records company
                     (drop (length (trace sys)) (trace sys'))) ∅).1.
Proof.
  rewrite search_company_run.
  destruct (page_loop _ _ _ _ _ _) as [sys1 [st | e]] eqn:Hloop; [| discriminate].
  cbn zeta. intros [= <- <-].
  destruct (page_loop_inv _ _ _ _ _ Hloop) as [delta [Htr ->]].
  cbn [trace] in *. rewrite Htr, <- !app_assoc, drop_app_length.
  change (EvLog ?a :: delta ++ ?b) with ([EvLog a] ++ delta ++ b).
  rewrite !fetched_records_app. simpl. rewrite app_nil_r. reflexivity.
Qed.

End PerCompany.

(** Every extracted record carries the canonical link of one of the
    anchors of the page, and the name it was searched for. *)
Lemma extract_records_canonical (html : Html) (company : string) :
  forall records, extract_linkedin_results html company = Ok records ->
  forall r, r ∈ records ->
  searchQuery r = company /\
  exists a raw_url, a ∈ html /\ href a = Some raw_url /\
                    _normalize_linkedin_url raw_url = Ok (Some (link r)).
Proof.
  induction html as [| a html IH]; intros records; simpl.
  - intros [= <-] r Hr. inversion Hr.
  - assert (Hrest : forall records',
               extract_linkedin_results html company = Ok records' ->
               forall r, r ∈ records' ->
               searchQuery r = company /\
               exists a' raw_url, a' ∈ a :: html /\ href a' = Some raw_url /\
                                  _normalize_linkedin_url raw_url = Ok (Some (link r))).
    { intros records' Hex r Hr.
      destruct (IH records' Hex r Hr) as [Hq [a' [raw [Ha' Hraw]]]].
      split; [exact Hq |]. exists a', raw. split; [| exact Hraw].
      apply list_elem_of_further, Ha'. }
    destruct (href a) as [[| c h] |] eqn:Hhref; [apply Hrest | | apply Hrest].
    destruct (_normalize_linkedin_url (String c h)) as [[[| c' l] |] | e] eqn:Hn;
      simpl; [apply Hrest | | apply Hrest | discriminate].
    destruct (extract_linkedin_results html company) as [results | e];
      simpl; [| discriminate].
    intros [= <-] r Hr. apply elem_of_cons in Hr as [-> | Hr].
    + simpl. split; [reflexivity |]. exists a, (String c h).
      split; [apply list_elem_of_here | split; [exact Hhref | exact Hn]].
    + apply (Hrest results eq_refl r Hr).
Qed.

Lemma fetched_records_canonical (company : string) (evs : list Event) (r : ResultRecord) :
  r ∈ fetched_records company evs ->
  searchQuery r = company /\
  exists raw_url, _normalize_linkedin_url raw_url = Ok (Some (link r)).
Proof.
  unfold fetched_records. intros Hr.
  apply list_elem_of_join in Hr as [l [Hr Hl]].
  apply list_elem_of_fmap in Hl as [html [-> _]].
  unfold page_records in Hr.
  destruct (extract_linkedin_results html company) as [records | e] eqn:Hex;
    [| inversion Hr].
  destruct (extract_records_canonical _ _ _ Hex r Hr) as [Hq [a [raw [_ [_ Hn]]]]].
  split; [exact Hq |]. exists raw. exact Hn.
Qed.

(** C1. The links of a name's result list are canonical and pairwise
    distinct, and the records stand in first-seen order: the list is a
    subsequence of the records of the fetched pages (page after page,
    document order within a page), each record is the first one with its
    link, and no accepted link is skipped before the slice ends. *)
Theorem results_distinct_in_first_seen_order
    (company : string) (results_per_company start_page max_pages : Z)
    (sys sys' : Sys) (res : list ResultRecord) :
  search_company config company results_per_company start_page max_pages sys
  = (sys', Ok res) ->
  let seen_order :=
    fetched_records company (drop (length (trace sys)) (trace sys')) in
  NoDup (link <$> res) /\
  (forall r, r ∈ res ->
             exists raw_url, _normalize_linkedin_url raw_url = Ok (Some (link r))) /\
  res `sublist_of` seen_order /\
  (forall r, r ∈ res -> first_with_link (link r) seen_order = Some r) /\
  res = py_slice_to results_per_company (dedupe seen_order ∅).1.
Proof.
  intros Hrun seen_order.
  pose proof (search_company_inv _ _ _ _ _ _ _ Hrun) as Hres.
  fold seen_order in Hres.
  destruct (py_slice_to_take results_per_company (dedupe seen_order ∅).1) as [k Hk].
  rewrite Hk in Hres.
  assert (Hsub : res `sublist_of` (dedupe seen_order ∅).1)
    by (rewrite Hres; apply sublist_take).
  assert (Hsub' : res `sublist_of` seen_order)
    by (etransitivity; [exact Hsub | apply dedupe_sublist]).
  split; [| split; [| split; [| split]]].
  - eapply sublist_NoDup; [apply (dedupe_new seen_order ∅) |].
    apply fmap_sublist. exact Hsub.
  - intros r Hr.
    apply (fetched_records_canonical company
             (drop (length (trace sys)) (trace sys')) r).
    eapply elem_of_sublist; eassumption.
  - exact Hsub'.
  - intros r Hr. apply (dedupe_first seen_order ∅).
    eapply elem_of_sublist; eassumption.
  - rewrite Hk. exact Hres.
Qed.

(** C2 (amended). For a requested results_per_company that is not
    negative, the list returned for a name holds at most that many
    records: it is the accumulation of the loop cut by slicing. *)
Theorem result_count_within_cap
    (company : string) (results_per_company start_page max_pages : Z)
    (sys sys' : Sys) (res : list ResultRecord) :
  0 <= results_per_company ->
  search_company config company results_per_company start_page max_pages sys
  = (sys', Ok res) ->
  Z.of_nat (length res) <= results_per_company /\
  exists sys1 st,
    page_loop config company results_per_company
              (iter_pages start_page max_pages) (mkSearchState [] ∅)
              (mkSys (world sys) (trace sys ++ [EvLog (MsgSearching company)]))
    = (sys1, Ok st) /\
    res = take (Z.to_nat results_per_company) (all_results st).
Proof.
  intros Hcap. rewrite search_company_run.
  destruct (page_loop _ _ _ _ _ _) as [sys1 [st | e]] eqn:Hloop; [| discriminate].
  cbn zeta. intros [= <- <-].
  unfold py_slice_to. destruct (Z.leb_spec 0 results_per_company); [| lia].
  split.
  - rewrite length_take. lia.
  - exists sys1, st. split; reflexivity.
Qed.

Lemma py_range_cons (start stop : Z) :
  start < stop -> py_range start stop = start :: py_range (start + 1) stop.
Proof.
  intros Hlt. unfold py_range.
  replace (Z.to_nat (stop - start)) with (S (Z.to_nat (stop - (start + 1)))) by lia.
  cbn [seq map]. f_equal; [lia |].
  rewrite <- seq_shift, map_map. apply map_ext. intros i. lia.
Qed.

Lemma iter_pages_cons (start_page max_pages : Z) :
  let first := if start_page <? 1 then 1 else start_page in
  let count := if max_pages <? 1 then 1 else max_pages in
  iter_pages start_page max_pages = first :: py_range (first + 1) (first + count).
Proof.
  intros first count. unfold iter_pages. fold first. fold count.
  apply py_range_cons. subst count. destruct (max_pages <? 1) eqn:E; lia.
Qed.



Lemma py_slice_to_nil {A : Type} (n : Z) : py_slice_to n (@nil A) = [].
Proof. unfold py_slice_to. destruct (0 <=? n); apply take_nil. Qed.


End LoopFacts.

(** ** The configuration *)

Section InitFacts.
Import Builtins Searcher SearcherClaims.
Context `{PyBuiltins}.

Lemma init_run (settings : gmap string PyVal) :
  __init__ (Some settings) =
  match py_int (dict_get settings "request_timeout_seconds"
                         default_request_timeout_seconds),
        py_float (dict_get settings "request_delay_seconds"
                           default_request_delay_seconds) with
  | Ok timeout, Ok delay =>
      Ok (mkSearchConfig
            (dict_get settings "search_engine" default_search_engine)
            (dict_get settings "query_template" default_query_template)
            timeout delay
            (dict_get settings "user_agent" default_user_agent))
  | Raise e, _ | Ok _, Raise e => Raise e
  end.
Proof.
  unfold __init__. cbn [default].
  destruct (py_int _); simpl; [| reflexivity].
  destruct (py_float _); reflexivity.
Qed.

(** C9 (amended). The constructor checks the type of no setting.  It
    fails, before anything is fetched, exactly when [int()] of the
    timeout value or [float()] of the delay value raises, and it raises
    what the first failing conversion raises, the timeout being converted
    first.  [int()] of the timeout raises a [TypeError] exactly for a
    null, a list or an object, a [ValueError] exactly for a string that
    is no integer literal or a NaN, and an [OverflowError] exactly for an
    infinity; [float()] of the delay raises a [TypeError] exactly for a
    null, a list or an object, a [ValueError] exactly for a string that
    is no float literal, and an [OverflowError] exactly for an integer
    beyond the range of a float.  The endpoint, the query template and
    the header value are stored as they are given, whatever their type;
    and a timeout or delay of another convertible type is coerced: a
    boolean timeout becomes 0 or 1, an integer delay becomes a float. *)
Theorem init_checks_only_convertibility (settings : gmap string PyVal) :
  let timeout_value := dict_get settings "request_timeout_seconds"
                                default_request_timeout_seconds in
  let delay_value := dict_get settings "request_delay_seconds"
                              default_request_delay_seconds in
  is_ok (__init__ (Some settings))
  = is_ok (py_int timeout_value) && is_ok (py_float delay_value) /\
  (forall cfg,
      __init__ (Some settings) = Ok cfg ->
      search_engine cfg = dict_get settings "search_engine" default_search_engine /\
      query_template cfg = dict_get settings "query_template" default_query_template /\
      user_agent cfg = dict_get settings "user_agent" default_user_agent /\
      py_int timeout_value = Ok (request_timeout_seconds cfg) /\
      py_float delay_value = Ok (request_delay_seconds cfg)) /\
  (timeout_value = VNone \/ (exists l, timeout_value = VList l) \/
   (exists d, timeout_value = VDict d) ->
   __init__ (Some settings) = Raise TypeError) /\
  (forall b, timeout_value = VBool b ->
             is_ok (py_float delay_value) = true ->
             exists cfg, __init__ (Some settings) = Ok cfg /\
                         request_timeout_seconds cfg = if b then 1 else 0) /\
  (forall n, delay_value = VInt n ->
             is_ok (py_int timeout_value) = true ->
             __init__ (Some settings) =
             match float_of_int n with
             | Ok f => Ok (mkSearchConfig
                             (dict_get settings "search_engine" default_search_engine)
                             (dict_get settings "query_template" default_query_template)
                             (match py_int timeout_value with Ok t => t | _ => 0 end)
                             f
                             (dict_get settings "user_agent" default_user_agent))
             | Raise e => Raise e
             end) /\
  (forall e,
      __init__ (Some settings) = Raise e <->
      py_int timeout_value = Raise e \/
      (is_ok (py_int timeout_value) = true /\ py_float delay_value = Raise e)) /\
  (forall e,
      py_int timeout_value = Raise e <->
      (e = TypeError /\
       (timeout_value = VNone \/ (exists l, timeout_value = VList l) \/
        (exists d, timeout_value = VDict d))) \/
      (e = ValueError /\
       ((exists s, timeout_value = VStr s /\ int_of_str s = None) \/
        timeout_value = VFloat S754_nan)) \/
      (e = OverflowError /\
       exists sign, timeout_value = VFloat (S754_infinity sign))) /\
  (forall e,
      py_float delay_value = Raise e <->
      (e = TypeError /\
       (delay_value = VNone \/ (exists l, delay_value = VList l) \/
        (exists d, delay_value = VDict d))) \/
      (e = ValueError /\
       exists s, delay_value = VStr s /\ float_of_str s = None) \/
      (e = OverflowError /\
       exists n, delay_value = VInt n /\ float_of_int n = Raise OverflowError)).
Proof.
  intros timeout_value delay_value. rewrite init_run.
  fold timeout_value delay_value.
  split; [| split; [| split; [| split; [| split; [| split; [| split]]]]]].
  - destruct (py_int timeout_value); [| reflexivity].
    destruct (py_float delay_value); reflexivity.
  - intros cfg.
    destruct (py_int timeout_value) as [t | e]; [| discriminate].
    destruct (py_float delay_value) as [d | e]; [| discriminate].
    intros [= <-]. repeat split.
  - intros [-> | [[l ->] | [d ->]]]; reflexivity.
  - intros b ->. simpl.
    destruct (py_float delay_value) as [d | e]; [| discriminate].
    intros _. eexists. split; reflexivity.
  - intros n ->. simpl.
    destruct (py_int timeout_value) as [t | e]; [| discriminate].
    intros _. destruct (float_of_int n); reflexivity.
  - intros e. destruct (py_int timeout_value) as [t | e1].
    + destruct (py_float delay_value) as [d | e2].
      * split; [discriminate | intros [? | [_ ?]]; discriminate].
      * split; [intros [= <-]; right; split; reflexivity |].
        intros [? | [_ [= <-]]]; [discriminate | reflexivity].
    + split; [intros [= <-]; left; reflexivity |].
      intros [[= <-] | [? _]]; [reflexivity | discriminate].
  - intros e. clear delay_value. generalize timeout_value as v. clear.
    intros v. split.
    + destruct v as [| b | n | f | s | l | d]; cbn [py_int];
        try discriminate.
      * intros [= <-]. left. split; [reflexivity | left; reflexivity].
      * destruct f as [sign | sign | | sign m ex]; cbn [int_of_float];
          try discriminate.
        -- intros [= <-]. right. right. split; [reflexivity | eauto].
        -- intros [= <-]. right. left. split; [reflexivity | right; reflexivity].
      * destruct (int_of_str s) eqn:Es; [discriminate |].
        intros [= <-]. right. left. split; [reflexivity |]. left. eauto.
      * intros [= <-]. left. split; [reflexivity |]. right. left. eauto.
      * intros [= <-]. left. split; [reflexivity |]. right. right. eauto.
    + intros [[-> [-> | [[l ->] | [d ->]]]]
             | [[-> [[s [-> Hs]] | ->]] | [-> [sign ->]]]];
        cbn [py_int int_of_float]; try reflexivity.
      rewrite Hs. reflexivity.
  - intros e. clear timeout_value. generalize delay_value as v. clear.
    intros v. split.
    + destruct v as [| b | n | f | s | l | d]; cbn [py_float];
        try discriminate.
      * intros [= <-]. left. split; [reflexivity | left; reflexivity].
      * destruct b; vm_compute; discriminate.
      * intros Hn. assert (He : e = OverflowError).
        { unfold float_of_int in Hn.
          destruct (binary_normalize 53 1024 n 0 false); try discriminate.
          injection Hn as <-. reflexivity. }
        subst e. right. right. split; [reflexivity | eauto].
      * destruct (float_of_str s) eqn:Es; [discriminate |].
        intros [= <-]. right. left. split; [reflexivity | eauto].
      * intros [= <-]. left. split; [reflexivity |]. right. left. eauto.
      * intros [= <-]. left. split; [reflexivity |]. right. right. eauto.
    + intros [[-> [-> | [[l ->] | [d ->]]]]
             | [[-> [s [-> Hs]]] | [-> [n [-> Hn]]]]];
        cbn [py_float]; try reflexivity.
      * rewrite Hs. reflexivity.
      * exact Hn.
Qed.

End InitFacts.

(** ** More on strings *)

Section MoreStringFacts.
Import PyStr Claims.
#[local] Arguments String.append !_ _ / : simpl nomatch.

Lemma forall_chars_app (p : ascii -> bool) (a b : string) :
  forall_chars p (a +:+ b) = forall_chars p a && forall_chars p b.
Proof.
  induction a as [| c a IH]; simpl; [reflexivity |].
  rewrite IH. apply andb_assoc.
Qed.

Lemma forall_chars_impl (p q : ascii -> bool) (s : string) :
  (forall c, p c = true -> q c = true) ->
  forall_chars p s = true -> forall_chars q s = true.
Proof.
  intros Hpq. induction s as [| c s IH]; simpl; [reflexivity |].
  intros [Hc Hs]%andb_true_iff. rewrite (Hpq c Hc), (IH Hs). reflexivity.
Qed.

Lemma filter_chars_forall (keep : ascii -> bool) (s : string) :
  forall_chars keep (filter_chars keep s) = true.
Proof.
  induction s as [| c s IH]; simpl; [reflexivity |].
  destruct (keep c) eqn:E; simpl; [rewrite E |]; exact IH.
Qed.

Lemma filter_chars_id (keep : ascii -> bool) (s : string) :
  forall_chars keep s = true -> filter_chars keep s = s.
Proof.
  induction s as [| c s IH]; simpl; [reflexivity |].
  intros [Hc Hs]%andb_true_iff. rewrite Hc, (IH Hs). reflexivity.
Qed.

Lemma forall_chars_has_char (p : ascii -> bool) (c : ascii) (s : string) :
  p c = false -> forall_chars p s = true -> has_char c s = false.
Proof.
  intros Hc. induction s as [| a s IH]; simpl; [reflexivity |].
  intros [Ha Hs]%andb_true_iff. rewrite (IH Hs), orb_false_r.
  destruct (Ascii.eqb_spec a c) as [-> | _]; [congruence | reflexivity].
Qed.

Lemma split1_spec (c : ascii) (s l r : string) :
  split1 c s = Some (l, r) -> s = l +:+ String c r /\ has_char c l = false.
Proof.
  revert l. induction s as [| a s IH]; intros l; simpl; [discriminate |].
  destruct (Ascii.eqb_spec a c) as [-> | Hne].
  - intros [= <- <-]. split; reflexivity.
  - destruct (split1 c s) as [[l' r'] |]; [| discriminate].
    intros [= <- <-]. destruct (IH l' eq_refl) as [-> Hl].
    split; [reflexivity |]. simpl. rewrite Hl.
    destruct (Ascii.eqb_spec a c); [contradiction | reflexivity].
Qed.

Lemma split1_none (c : ascii) (s : string) :
  has_char c s = false -> split1 c s = None.
Proof.
  induction s as [| a s IH]; simpl; [reflexivity |].
  intros [Ha Hs]%orb_false_iff. rewrite Ha, (IH Hs). reflexivity.
Qed.

Lemma split1_app (c : ascii) (l r : string) :
  has_char c l = false -> split1 c (l +:+ String c r) = Some (l, r).
Proof.
  induction l as [| a l IH]; simpl.
  - intros _. rewrite Ascii.eqb_refl. reflexivity.
  - intros [Ha Hl]%orb_false_iff. rewrite Ha, (IH Hl). reflexivity.
Qed.

Lemma span_spec (p : ascii -> bool) (s l r : string) :
  span p s = (l, r) ->
  s = l +:+ r /\ forall_chars p l = true /\
  (r = "" \/ exists c r', r = String c r' /\ p c = false).
Proof.
  revert l r. induction s as [| a s IH]; intros l r; simpl.
  - intros [= <- <-]. auto.
  - destruct (p a) eqn:Ha.
    + destruct (span p s) as [l' r']. intros E. injection E as <- <-.
      destruct (IH l' r' eq_refl) as [-> [Hl Hr]]. simpl. rewrite Ha, Hl. auto.
    + intros E. injection E as <- <-. simpl.
      split; [reflexivity |]. split; [reflexivity |]. right. eauto.
Qed.

Lemma span_app (p : ascii -> bool) (l r : string) :
  forall_chars p l = true ->
  (r = "" \/ exists c r', r = String c r' /\ p c = false) ->
  span p (l +:+ r) = (l, r).
Proof.
  intros Hl Hr. induction l as [| a l IH]; simpl.
  - destruct Hr as [-> | [c [r' [-> Hc]]]]; simpl; [reflexivity |].
    rewrite Hc. reflexivity.
  - simpl in Hl. apply andb_true_iff in Hl as [Ha Hl].
    rewrite Ha, (IH Hl). reflexivity.
Qed.

Lemma prefix_app (p s : string) :
  String.prefix p s = true -> exists r, s = p +:+ r.
Proof.
  revert s. induction p as [| a p IH]; intros s; simpl.
  - destruct s; intros _; eexists; reflexivity.
  - destruct s as [| b s]; simpl; [discriminate |].
    destruct (ascii_dec a b) as [-> | _]; [| discriminate].
    intros Hp. destruct (IH s Hp) as [r ->]. exists r. reflexivity.
Qed.

Lemma prefix_of_app (p r : string) : String.prefix p (p +:+ r) = true.
Proof.
  induction p as [| a p IH]; simpl.
  - destruct r; reflexivity.
  - destruct (ascii_dec a a); [exact IH | contradiction].
Qed.

Lemma endswith_char_app (c : ascii) (a b : string) :
  b <> "" -> endswith_char c (a +:+ b) = endswith_char c b.
Proof.
  intros Hb. induction a as [| x a IH]; simpl; [reflexivity |].
  rewrite <- IH. destruct (a +:+ b) eqn:E; [| reflexivity].
  destruct a; simpl in E; [congruence | discriminate].
Qed.

Lemma rstrip_app (c : ascii) (a b : string) :
  rstrip c b <> "" -> rstrip c (a +:+ b) = a +:+ rstrip c b.
Proof.
  intros Hb. induction a as [| x a IH]; simpl; [reflexivity |].
  rewrite IH. destruct (a +:+ rstrip c b) eqn:E; [| reflexivity].
  destruct a; simpl in E; [congruence | discriminate].
Qed.

Lemma rstrip_empty_all (c : ascii) (s : string) :
  rstrip c s = "" -> forall_chars (fun a => Ascii.eqb a c) s = true.
Proof.
  induction s as [| a s IH]; simpl; [reflexivity |].
  destruct (rstrip c s) eqn:E; [| discriminate].
  destruct (Ascii.eqb a c); [intros _; apply IH; reflexivity | discriminate].
Qed.

Lemma contains_not_all_slashes (s : string) :
  contains "/company/" s = true ->
  forall_chars (fun a => Ascii.eqb a "/") s = false.
Proof.
  induction s as [| a s IH].
  - simpl. discriminate.
  - cbn [contains]. intros [Hp | Hs]%orb_true_iff.
    + destruct (prefix_app _ _ Hp) as [r E]. rewrite E. reflexivity.
    + simpl. rewrite (IH Hs). apply andb_false_r.
Qed.

End MoreStringFacts.

Section CharFacts.
Import PyStr Urllib UrlShape.

Ltac all_chars c :=
  destruct c as [[] [] [] [] [] [] [] []]; vm_compute; try discriminate; auto.

Lemma lower_scheme_char_facts (c : ascii) :
  is_lower_scheme_char c = true ->
  lower_char c = c /\ is_scheme_char c = true /\ is_safe_char c = true /\
  Ascii.eqb c ":" = false.
Proof. all_chars c. Qed.

Lemma lower_char_scheme (c : ascii) :
  is_scheme_char c = true -> is_lower_scheme_char (lower_char c) = true.
Proof. all_chars c. Qed.

Lemma lower_char_alpha (c : ascii) :
  is_ascii_alpha c = true -> is_ascii_lower (lower_char c) = true.
Proof. all_chars c. Qed.

Lemma ascii_lower_facts (c : ascii) :
  is_ascii_lower c = true ->
  is_ascii_alpha c = true /\ is_c0_or_space c = false.
Proof. all_chars c. Qed.

Lemma netloc_delim_cases (c : ascii) :
  is_netloc_delim c = true -> c = "/"%char \/ c = "?"%char \/ c = "#"%char.
Proof. all_chars c. Qed.

End CharFacts.

(** ** What urlsplit and urlparse return *)

Section SplitFacts.
Import PyStr Urllib UrlShape.
Context `{UrllibExt}.
#[local] Arguments String.append !_ _ / : simpl nomatch.

Lemma before_spec (c : ascii) (s : string) :
  exists rest, s = before c s +:+ rest /\ has_char c (before c s) = false.
Proof.
  unfold before. destruct (split1 c s) as [[l r] |] eqn:E.
  - destruct (split1_spec _ _ _ _ E) as [-> Hl]. eauto.
  - exists "". rewrite append_nil_r. split; [reflexivity |].
    clear -E. induction s as [| a s IH]; simpl in *; [reflexivity |].
    destruct (Ascii.eqb a c); [discriminate |].
    destruct (split1 c s) as [[l r] |]; [discriminate |]. auto.
Qed.

Lemma before_forall (p : ascii -> bool) (c : ascii) (s : string) :
  forall_chars p s = true -> forall_chars p (before c s) = true.
Proof.
  destruct (before_spec c s) as [rest [E _]]. intros Hs.
  rewrite E, forall_chars_app in Hs. apply andb_true_iff in Hs. tauto.
Qed.

Lemma before_cons_ne (c a : ascii) (s : string) :
  Ascii.eqb a c = false -> before c (String a s) = String a (before c s).
Proof.
  intros Hne. unfold before. simpl. rewrite Hne.
  destruct (split1 c s) as [[l r] |]; reflexivity.
Qed.

Lemma before_cons_eq (c : ascii) (s : string) : before c (String c s) = "".
Proof. unfold before. simpl. rewrite Ascii.eqb_refl. reflexivity. Qed.

Lemma before_id (c : ascii) (s : string) :
  has_char c s = false -> before c s = s.
Proof. intros Hs. unfold before. rewrite (split1_none _ _ Hs). reflexivity. Qed.

(** [urlsplit], with its local names spelled out. *)
Lemma urlsplit_eq (url : string) :
  urlsplit url =
  let url2 := filter_chars is_safe_char (lstrip is_c0_or_space url) in
  let scheme := (split_scheme url2).1 in
  let url3 := (split_scheme url2).2 in
  let has_netloc := startswith url3 "//" in
  let netloc := if has_netloc then (_splitnetloc url3).1 else "" in
  let url4 := if has_netloc then (_splitnetloc url3).2 else url3 in
  if has_netloc && negb (check_netloc netloc) then Raise ValueError
  else Ok (mkSplitResult scheme netloc
                         (before "?" (before "#" url4))
                         (after "?" (before "#" url4))
                         (after "#" url4)).
Proof.
  unfold urlsplit, before, after, is_safe_char.
  destruct (split_scheme _) as [scheme url3]. cbn [fst snd]. cbn zeta.
  destruct (startswith url3 "//").
  - destruct (_splitnetloc url3) as [netloc url4]. cbn [fst snd andb].
    destruct (check_netloc netloc); cbn [negb]; [| reflexivity].
    destruct (split1 "#" url4) as [[u5 f] |];
      [destruct (split1 "?" u5) as [[u6 q] |]
      | destruct (split1 "?" url4) as [[u6 q] |]]; reflexivity.
  - cbn [andb].
    destruct (split1 "#" url3) as [[u5 f] |];
      [destruct (split1 "?" u5) as [[u6 q] |]
      | destruct (split1 "?" url3) as [[u6 q] |]]; reflexivity.
Qed.

Lemma map_lower_scheme (s : string) :
  forall_chars is_scheme_char s = true ->
  forall_chars is_lower_scheme_char (map_chars lower_char s) = true.
Proof.
  induction s as [| c s IH]; simpl; [reflexivity |].
  intros [Hc Hs]%andb_true_iff. rewrite (lower_char_scheme c Hc), (IH Hs).
  reflexivity.
Qed.

Lemma map_lower_id (s : string) :
  forall_chars is_lower_scheme_char s = true -> map_chars lower_char s = s.
Proof.
  induction s as [| c s IH]; simpl; [reflexivity |].
  intros [Hc Hs]%andb_true_iff.
  destruct (lower_scheme_char_facts c Hc) as [-> _]. rewrite (IH Hs). reflexivity.
Qed.

Lemma forall_chars_suffix (p : ascii -> bool) (a b : string) :
  forall_chars p (a +:+ b) = true -> forall_chars p b = true.
Proof. rewrite forall_chars_app. intros [_ Hb]%andb_true_iff. exact Hb. Qed.

Lemma forall_chars_prefix (p : ascii -> bool) (a b : string) :
  forall_chars p (a +:+ b) = true -> forall_chars p a = true.
Proof. rewrite forall_chars_app. intros [Ha _]%andb_true_iff. exact Ha. Qed.

(** The scheme that [split_scheme] finds is lower case and starts with a
    letter; what is left is a suffix of the URL. *)
Lemma split_scheme_spec (url : string) :
  well_formed_scheme (split_scheme url).1 = true /\
  exists pre, url = pre +:+ (split_scheme url).2.
Proof.
  unfold split_scheme.
  destruct (split1 ":" url) as [[[| c0 pre'] rest] |] eqn:E;
    try (split; [reflexivity | exists ""; reflexivity]).
  destruct (is_ascii_alpha c0) eqn:Ha; cbn [andb];
    [| split; [reflexivity | exists ""; reflexivity]].
  destruct (forall_chars is_scheme_char (String c0 pre')) eqn:Hs;
    [| split; [reflexivity | exists ""; reflexivity]].
  cbn [fst snd]. split.
  - cbn [map_chars well_formed_scheme]. rewrite (lower_char_alpha c0 Ha).
    apply (map_lower_scheme (String c0 pre') Hs).
  - destruct (split1_spec _ _ _ _ E) as [-> _].
    exists (String c0 pre' +:+ ":"). rewrite append_assoc. reflexivity.
Qed.

Lemma split_scheme_rebuilt (scheme rest : string) :
  well_formed_scheme scheme = true -> scheme <> "" ->
  split_scheme (scheme +:+ String ":" rest) = (scheme, rest).
Proof.
  destruct scheme as [| c0 pre']; [congruence |].
  cbn [well_formed_scheme]. intros [Hc Hs]%andb_true_iff _.
  unfold split_scheme. rewrite split1_app.
  - destruct (ascii_lower_facts c0 Hc) as [-> _]. cbn [andb].
    rewrite (forall_chars_impl is_lower_scheme_char is_scheme_char _
               (fun c Hc => proj1 (proj2 (lower_scheme_char_facts c Hc))) Hs).
    rewrite (map_lower_id _ Hs). reflexivity.
  - apply (forall_chars_has_char is_lower_scheme_char); [reflexivity | exact Hs].
Qed.

Lemma split_scheme_slash (rest : string) :
  split_scheme (String "/" rest) = ("", String "/" rest).
Proof.
  unfold split_scheme. simpl.
  destruct (split1 ":" rest) as [[l r] |]; reflexivity.
Qed.

Lemma splitnetloc_spec (url3 : string) :
  startswith url3 "//" = true ->
  url3 = "//" +:+ (_splitnetloc url3).1 +:+ (_splitnetloc url3).2 /\
  forall_chars (fun c => negb (is_netloc_delim c)) (_splitnetloc url3).1 = true /\
  ((_splitnetloc url3).2 = "" \/
   exists c r, (_splitnetloc url3).2 = String c r /\ is_netloc_delim c = true).
Proof.
  intros Hp. destruct (prefix_app _ _ Hp) as [rest ->]. simpl.
  destruct (span _ rest) as [l r] eqn:E.
  destruct (span_spec _ _ _ _ E) as [-> [Hl Hr]]. cbn [fst snd].
  split; [reflexivity |]. split; [exact Hl |].
  destruct Hr as [-> | [c [r' [-> Hc]]]]; [left; reflexivity |].
  right. exists c, r'. split; [reflexivity |].
  apply negb_false_iff. exact Hc.
Qed.

Lemma startswith_cons (c : ascii) (s : string) :
  startswith (String c s) (String c "") = true.
Proof.
  unfold startswith. simpl. destruct (ascii_dec c c); [| contradiction].
  destruct s; reflexivity.
Qed.

(** The path of a URL that has a netloc is empty or starts with a
    separator. *)
Lemma path_after_netloc (url4 : string) :
  (url4 = "" \/ exists c r, url4 = String c r /\ is_netloc_delim c = true) ->
  before "?" (before "#" url4) = "" \/
  startswith (before "?" (before "#" url4)) "/" = true.
Proof.
  intros [-> | [c [r [-> Hc]]]]; [left; reflexivity |].
  destruct (netloc_delim_cases c Hc) as [-> | [-> | ->]].
  - right. rewrite !before_cons_ne by reflexivity. apply startswith_cons.
  - left. rewrite before_cons_ne by reflexivity. apply before_cons_eq.
  - left. rewrite before_cons_eq. reflexivity.
Qed.

(** What [urlsplit] returns. *)
Lemma urlsplit_shape (url : string) (sr : SplitResult) :
  urlsplit url = Ok sr ->
  well_formed_scheme (s_scheme sr) = true /\
  forall_chars is_netloc_char (s_netloc sr) = true /\
  forall_chars is_path_char (s_path sr) = true /\
  (s_netloc sr <> "" ->
   check_netloc (s_netloc sr) = true /\
   (s_path sr = "" \/ startswith (s_path sr) "/" = true)).
Proof.
  rewrite urlsplit_eq. cbn zeta.
  set (url2 := filter_chars is_safe_char (lstrip is_c0_or_space url)).
  assert (Hsafe2 : forall_chars is_safe_char url2 = true)
    by apply filter_chars_forall.
  destruct (split_scheme_spec url2) as [Hscheme [pre Hrest]].
  set (url3 := (split_scheme url2).2) in *.
  assert (Hsafe3 : forall_chars is_safe_char url3 = true).
  { rewrite Hrest in Hsafe2. eapply forall_chars_suffix, Hsafe2. }
  assert (Hpath : forall u, forall_chars is_safe_char u = true ->
              forall_chars is_path_char (before "?" (before "#" u)) = true).
  { intros u Hu.
    destruct (before_spec "#" u) as [r1 [_ H1]].
    destruct (before_spec "?" (before "#" u)) as [r2 [E2 H2]].
    assert (H1' : has_char "#" (before "?" (before "#" u)) = false).
    { rewrite E2 in H1. clear -H1.
      induction (before "?" (before "#" u)) as [| a s IH]; [reflexivity |].
      simpl in *. apply orb_false_iff in H1 as [-> H1]. auto. }
    pose proof (before_forall is_safe_char "?" _
                  (before_forall is_safe_char "#" _ Hu)) as Hs.
    clear -H1' H2 Hs.
    induction (before "?" (before "#" u)) as [| a s IH]; [reflexivity |].
    simpl in *. apply orb_false_iff in H1' as [Ha1 H1'].
    apply orb_false_iff in H2 as [Ha2 H2].
    apply andb_true_iff in Hs as [Ha Hs].
    unfold is_path_char at 1. rewrite Ha, Ha1, Ha2. simpl. auto. }
  destruct (startswith url3 "//") eqn:Hnet; cbn [andb].
  - destruct (splitnetloc_spec url3 Hnet) as [E3 [Hnl Hu4]].
    destruct (check_netloc (_splitnetloc url3).1) eqn:Hcheck; cbn [negb];
      [| discriminate].
    intros [= <-]. cbn [s_scheme s_netloc s_path].
    assert (Hsafe_nl : forall_chars is_safe_char (_splitnetloc url3).1 = true /\
                       forall_chars is_safe_char (_splitnetloc url3).2 = true).
    { rewrite E3 in Hsafe3. simpl in Hsafe3.
      rewrite forall_chars_app in Hsafe3.
      apply andb_true_iff in Hsafe3. exact Hsafe3. }
    destruct Hsafe_nl as [Hs1 Hs2].
    split; [exact Hscheme |]. split; [| split].
    + clear -Hs1 Hnl. induction (_splitnetloc url3).1 as [| a s IH];
        [reflexivity |]. simpl in *.
      apply andb_true_iff in Hs1 as [Ha Hs1].
      apply andb_true_iff in Hnl as [Hb Hnl].
      unfold is_netloc_char at 1. rewrite Ha, Hb. simpl. auto.
    + apply Hpath, Hs2.
    + intros _. split; [exact Hcheck |]. apply path_after_netloc, Hu4.
  - intros [= <-]. cbn [s_scheme s_netloc s_path].
    split; [exact Hscheme |]. split; [reflexivity |].
    split; [apply Hpath, Hsafe3 |]. intros Hne. congruence.
Qed.

End SplitFacts.

Section ParseFacts.
Import PyStr Urllib UrlShape ResultParser Claims.
Context `{UrllibExt}.
#[local] Arguments String.append !_ _ / : simpl nomatch.

Lemma split_last_slash_app (s : string) :
  (split_last_slash s).1 +:+ (split_last_slash s).2 = s.
Proof.
  induction s as [| a s IH]; [reflexivity |].
  cbn [split_last_slash]. destruct (split_last_slash s) as [l r].
  cbn [fst snd] in *. destruct (has_char "/" s).
  - cbn [fst snd]. simpl. rewrite IH. reflexivity.
  - destruct (Ascii.eqb_spec a "/") as [-> | _]; reflexivity.
Qed.

Lemma splitparams_spec (url l r : string) :
  _splitparams url = (l, r) ->
  url = l +:+ String ";" r \/ (l = url /\ r = "").
Proof.
  unfold _splitparams. destruct (has_char "/" url).
  - pose proof (split_last_slash_app url) as E.
    destruct (split_last_slash url) as [dir seg]. cbn [fst snd] in E.
    destruct (split1 ";" seg) as [[l' r'] |] eqn:Es.
    + intros [= <- <-]. left. destruct (split1_spec _ _ _ _ Es) as [-> _].
      rewrite append_assoc. symmetry. exact E.
    + intros [= <- <-]. right. auto.
  - destruct (split1 ";" url) as [[l' r'] |] eqn:Es.
    + intros [= <- <-]. left. apply (split1_spec _ _ _ _ Es).
    + intros [= <- <-]. right. auto.
Qed.

(** Joining what [_splitparams] split gives the URL back, unless the
    parameters are empty. *)
Lemma joined_splitparams (url l r : string) :
  _splitparams url = (l, r) ->
  exists rest, url = joined_path l r +:+ rest /\
               (rest = "" \/ (r = "" /\ url = l +:+ ";")).
Proof.
  intros Hs. unfold joined_path.
  destruct (splitparams_spec _ _ _ Hs) as [-> | [-> ->]].
  - destruct (String.eqb_spec r "") as [-> | Hne].
    + exists ";". auto.
    + exists "". rewrite append_nil_r. auto.
  - exists "". rewrite append_nil_r. auto.
Qed.

(** What [urlparse] returns: the components of [urlsplit], the path cut
    in two. *)
Lemma urlparse_shape (url : string) (parsed : ParseResult) :
  urlparse url = Ok parsed ->
  well_formed_scheme (scheme parsed) = true /\
  forall_chars is_netloc_char (netloc parsed) = true /\
  forall_chars is_path_char (joined_path (path parsed) (params parsed)) = true /\
  (exists rest, joined_path (path parsed) (params parsed) = path parsed +:+ rest) /\
  (netloc parsed <> "" ->
   check_netloc (netloc parsed) = true /\
   (path parsed = "" \/ startswith (path parsed) "/" = true)).
Proof.
  unfold urlparse. destruct (urlsplit url) as [sr | e] eqn:Hsplit; [| discriminate].
  destruct (urlsplit_shape _ _ Hsplit) as [Hscheme [Hnl [Hpath Hnet]]].
  cbn [mbind result_bind].
  destruct (in_list (s_scheme sr) uses_params && has_char ";" (s_path sr)).
  - destruct (_splitparams (s_path sr)) as [l r] eqn:Hsp.
    intros [= <-]. cbn [scheme netloc path params].
    destruct (joined_splitparams _ _ _ Hsp) as [rest [E Hrest]].
    split; [exact Hscheme |]. split; [exact Hnl |]. split; [| split].
    + rewrite E in Hpath. eapply forall_chars_prefix, Hpath.
    + unfold joined_path. destruct (String.eqb r "");
        [exists ""; rewrite append_nil_r | eexists]; reflexivity.
    + intros Hne. destruct (Hnet Hne) as [Hcheck Hstart].
      split; [exact Hcheck |].
      destruct (splitparams_spec _ _ _ Hsp) as [E' | [-> _]]; [| exact Hstart].
      rewrite E' in Hstart. destruct l as [| c l]; [left; reflexivity |].
      right. destruct Hstart as [Hs | Hs]; [discriminate |].
      destruct (prefix_app _ _ Hs) as [x Hx]. simpl in Hx.
      injection Hx as -> _. apply startswith_cons.
  - intros [= <-]. cbn [scheme netloc path params]. unfold joined_path. simpl.
    split; [exact Hscheme |]. split; [exact Hnl |]. split; [exact Hpath |].
    split; [exists ""; rewrite append_nil_r; reflexivity | exact Hnet].
Qed.

(** [urlsplit] on a URL put together from a scheme, a netloc and a
    path. *)
Lemma urlsplit_rebuilt (scheme netloc url : string) :
  well_formed_scheme scheme = true ->
  netloc <> "" ->
  forall_chars is_netloc_char netloc = true ->
  check_netloc netloc = true ->
  forall_chars is_path_char url = true ->
  startswith url "/" = true ->
  urlsplit (scheme_prefix scheme +:+ netloc +:+ url)
  = Ok (mkSplitResult scheme netloc url "" "").
Proof.
  intros Hscheme Hne Hnl Hcheck Hpath Hstart.
  destruct (prefix_app _ _ Hstart) as [url' ->].
  assert (Hsafe_nl : forall_chars is_safe_char netloc = true).
  { eapply forall_chars_impl, Hnl. intros c. unfold is_netloc_char.
    intros [Hc _]%andb_true_iff. exact Hc. }
  assert (Hsafe_path : forall_chars is_safe_char ("/" +:+ url') = true).
  { eapply forall_chars_impl, Hpath. intros c. unfold is_path_char.
    intros [[Hc _]%andb_true_iff _]%andb_true_iff. exact Hc. }
  assert (Hnodelim : forall_chars (fun c => negb (is_netloc_delim c)) netloc = true).
  { eapply forall_chars_impl, Hnl. intros c. unfold is_netloc_char.
    intros [_ Hc]%andb_true_iff. exact Hc. }
  assert (Htail : forall_chars is_safe_char ("//" +:+ netloc +:+ "/" +:+ url') = true).
  { simpl. rewrite forall_chars_app, Hsafe_nl. exact Hsafe_path. }
  assert (Hsplit : _splitnetloc ("//" +:+ netloc +:+ "/" +:+ url')
                   = (netloc, "/" +:+ url')).
  { simpl. apply span_app; [exact Hnodelim |]. right. eauto. }
  assert (Hnohash : has_char "#" ("/" +:+ url') = false).
  { apply (forall_chars_has_char is_path_char); [reflexivity | exact Hpath]. }
  assert (Hnoquest : has_char "?" ("/" +:+ url') = false).
  { apply (forall_chars_has_char is_path_char); [reflexivity | exact Hpath]. }
  assert (Hst : startswith ("//" +:+ netloc +:+ "/" +:+ url') "//" = true)
    by apply (prefix_of_app "//").
  rewrite urlsplit_eq. cbn zeta. unfold scheme_prefix.
  destruct scheme as [| c0 scheme'].
  - cbn [String.eqb].
    assert (Hl : lstrip is_c0_or_space ("//" +:+ netloc +:+ "/" +:+ url')
                 = "//" +:+ netloc +:+ "/" +:+ url') by reflexivity.
    rewrite Hl, (filter_chars_id _ _ Htail).
    assert (Hs : split_scheme ("//" +:+ netloc +:+ "/" +:+ url')
                 = ("", "//" +:+ netloc +:+ "/" +:+ url'))
      by apply split_scheme_slash.
    rewrite Hs. cbn [fst snd].
    rewrite Hst, Hsplit. cbn [fst snd].
    rewrite Hcheck. cbn [negb andb].
    rewrite (before_id "#" _ Hnohash), (before_id "?" _ Hnoquest).
    unfold after.
    rewrite (split1_none "?" _ Hnoquest), (split1_none "#" _ Hnohash).
    reflexivity.
  - cbn [String.eqb]. cbn [well_formed_scheme] in Hscheme.
    pose proof Hscheme as [Hc0 Hchars]%andb_true_iff.
    destruct (ascii_lower_facts c0 Hc0) as [_ Hnotc0].
    assert (Hsafe_scheme : forall_chars is_safe_char (String c0 scheme') = true).
    { eapply forall_chars_impl, Hchars. intros c Hc.
      apply (lower_scheme_char_facts c Hc). }
    assert (E : (String c0 scheme' +:+ "://") +:+ netloc +:+ "/" +:+ url'
                = String c0 scheme' +:+ String ":" ("//" +:+ netloc +:+ "/" +:+ url')).
    { rewrite append_assoc. reflexivity. }
    rewrite E.
    assert (Hl : forall x, lstrip is_c0_or_space (String c0 scheme' +:+ x)
                           = String c0 scheme' +:+ x).
    { intros x. simpl. rewrite Hnotc0. reflexivity. }
    rewrite Hl, filter_chars_id.
    2:{ rewrite forall_chars_app, Hsafe_scheme. simpl.
        simpl in Htail. exact Htail. }
    rewrite split_scheme_rebuilt by (simpl; auto; discriminate). cbn [fst snd].
    rewrite Hst, Hsplit. cbn [fst snd].
    rewrite Hcheck. cbn [negb andb].
    rewrite (before_id "#" _ Hnohash), (before_id "?" _ Hnoquest).
    unfold after.
    rewrite (split1_none "?" _ Hnoquest), (split1_none "#" _ Hnohash).
    reflexivity.
Qed.

(** [clean_url] for a URL with a netloc. *)
Lemma clean_url_netloc (parsed : ParseResult) :
  netloc parsed <> "" ->
  (let j := joined_path (path parsed) (params parsed) in
   j = "" \/ startswith j "/" = true) ->
  clean_url parsed =
  scheme_prefix (scheme parsed) +:+ netloc parsed +:+
  joined_path (path parsed) (params parsed).
Proof.
  intros Hne Hj. cbn zeta in Hj.
  unfold clean_url, urlunparse, urlunsplit, joined_path, scheme_prefix in *.
  cbn [scheme netloc path params query fragment
       s_scheme s_netloc s_path s_query s_fragment].
  destruct (String.eqb_spec (netloc parsed) "") as [? | _]; [contradiction |].
  cbn [negb orb String.eqb].
  set (j := if String.eqb (params parsed) "" then path parsed
            else path parsed +:+ ";" +:+ params parsed) in *.
  replace (if negb (String.eqb (params parsed) "")
           then path parsed +:+ ";" +:+ params parsed else path parsed)
    with j by (subst j; destruct (String.eqb (params parsed) ""); reflexivity).
  assert (Hj' : (if negb (String.eqb j "") && negb (startswith j "/")
                 then "/" +:+ j else j) = j).
  { destruct Hj as [-> | ->]; [reflexivity |]. rewrite andb_false_r. reflexivity. }
  rewrite Hj'.
  destruct (String.eqb (scheme parsed) ""); cbn [negb]; [reflexivity |].
  rewrite !append_assoc. reflexivity.
Qed.

End ParseFacts.

(** ** Normalizing a canonical link again *)

Section Idempotence.
Import PyStr Urllib UrlShape ResultParser Claims.
Context `{UrllibExt}.
#[local] Arguments String.append !_ _ / : simpl nomatch.

Lemma select_candidate_parsed (raw_url : string) (parsed : ParseResult) :
  select_candidate raw_url = Ok parsed -> exists url, urlparse url = Ok parsed.
Proof.
  unfold select_candidate.
  destruct (urlparse raw_url) as [p | e] eqn:E; [| discriminate].
  cbn [mbind result_bind].
  destruct (is_redirect_wrapper raw_url p).
  - destruct (candidate_list p) as [| c cs].
    + intros [= <-]. eauto.
    + intros Hc. eauto.
  - intros [= <-]. eauto.
Qed.

(** A canonical link: a scheme prefix, a netloc that mentions the
    domain, and a path that starts with a separator and does not end in
    one. *)
Lemma canonical_shape (raw_url s : string) :
  _normalize_linkedin_url raw_url = Ok (Some s) ->
  exists scheme netloc url,
    s = scheme_prefix scheme +:+ netloc +:+ url /\
    well_formed_scheme scheme = true /\
    contains "linkedin.com" netloc = true /\
    forall_chars is_netloc_char netloc = true /\
    check_netloc netloc = true /\
    forall_chars is_path_char url = true /\
    startswith url "/" = true /\
    endswith_char "/" url = false.
Proof.
  intros Hn. destruct (normalize_inv _ _ Hn) as [_ [parsed [Hsel Hcan]]].
  destruct (canonical_of_inv _ _ Hcan) as [Hdom [Hmark ->]].
  destruct (select_candidate_parsed _ _ Hsel) as [u Hparse].
  destruct (urlparse_shape _ _ Hparse) as [Hscheme [Hnl [Hpath [[rest Hj] Hnet]]]].
  assert (Hne : netloc parsed <> "").
  { intros E. rewrite E in Hdom. discriminate. }
  destruct (Hnet Hne) as [Hcheck Hstart].
  set (j := joined_path (path parsed) (params parsed)) in *.
  assert (Hnotall : forall_chars (fun a => Ascii.eqb a "/") j = false).
  { rewrite Hj, forall_chars_app, (contains_not_all_slashes _ Hmark). reflexivity. }
  assert (Hjstart : startswith j "/" = true).
  { destruct Hstart as [E | Hs].
    - rewrite E in Hmark. discriminate.
    - destruct (prefix_app _ _ Hs) as [x Hx]. rewrite Hj, Hx.
      apply (prefix_of_app "/"). }
  assert (Hq : rstrip "/" j <> "").
  { intros E. apply rstrip_empty_all in E. congruence. }
  rewrite strip_trailing_slashes_rstrip.
  rewrite (clean_url_netloc parsed Hne) by (right; exact Hjstart). fold j.
  exists (scheme parsed), (netloc parsed), (rstrip "/" j).
  destruct (rstrip_slashes j) as [n En].
  split; [| repeat split; try assumption].
  - rewrite <- append_assoc, rstrip_app by exact Hq. apply append_assoc.
  - rewrite En in Hpath. eapply forall_chars_prefix, Hpath.
  - destruct (rstrip "/" j) as [| c q] eqn:Eq; [congruence |].
    destruct (prefix_app _ _ Hjstart) as [x Hx]. rewrite Hx in En.
    simpl in En. injection En as <- _. apply startswith_cons.
  - apply rstrip_not_endswith.
Qed.

(** C7 (amended). Applying normalization to a canonical link that does
    not end in [;] returns it unchanged when the path of the link still
    holds the company marker, and rejects it when stripping the trailing
    separators has removed the marker; parsing it again never raises. *)
Theorem renormalizing_a_canonical_link (raw_url s : string) :
  _normalize_linkedin_url raw_url = Ok (Some s) ->
  endswith_char ";" s = false ->
  exists parsed,
    urlparse s = Ok parsed /\
    _normalize_linkedin_url s =
    if contains "/company/" (path parsed) then Ok (Some s) else Ok None.
Proof.
  intros Hn Hsemi.
  destruct (canonical_shape _ _ Hn)
    as [sch [nl [url [-> [Hscheme [Hdom [Hnl [Hcheck [Hpath [Hstart Hend]]]]]]]]]].
  assert (Hne : nl <> "") by (intros E; rewrite E in Hdom; discriminate).
  assert (Hurl : url <> "") by (intros E; rewrite E in Hstart; discriminate).
  assert (Hsemi' : endswith_char ";" url = false).
  { rewrite <- append_assoc, endswith_char_app in Hsemi by exact Hurl.
    exact Hsemi. }
  pose proof (urlsplit_rebuilt sch nl url Hscheme Hne Hnl Hcheck Hpath Hstart)
    as Hsplit.
  set (s := scheme_prefix sch +:+ nl +:+ url) in *.
  set (cut := if in_list sch uses_params && has_char ";" url
              then _splitparams url else (url, "")).
  assert (Hparse : urlparse s = Ok (mkParseResult sch nl cut.1 cut.2 "" "")).
  { unfold urlparse. rewrite Hsplit. cbn [mbind result_bind s_scheme s_path].
    fold cut. destruct cut. reflexivity. }
  assert (Hjoin : joined_path cut.1 cut.2 = url).
  { subst cut. unfold joined_path.
    destruct (in_list sch uses_params && has_char ";" url); [| reflexivity].
    destruct (_splitparams url) as [l r] eqn:Hsp. cbn [fst snd].
    destruct (splitparams_spec _ _ _ Hsp) as [E | [-> ->]]; [| reflexivity].
    destruct (String.eqb_spec r "") as [-> | _]; [| symmetry; exact E].
    rewrite E, endswith_char_app_char in Hsemi'. discriminate. }
  exists (mkParseResult sch nl cut.1 cut.2 "" ""). split; [exact Hparse |].
  unfold _normalize_linkedin_url, select_candidate.
  assert (Hs : s <> "").
  { subst s. unfold scheme_prefix. destruct (String.eqb sch "");
      [discriminate |]. destruct sch; discriminate. }
  destruct (String.eqb_spec s "") as [? | _]; [contradiction |].
  rewrite Hparse. cbn [mbind result_bind].
  unfold is_redirect_wrapper. cbn [netloc]. rewrite Hdom.
  cbn [negb andb mbind result_bind].
  unfold canonical_of. cbn [netloc path]. rewrite Hdom. cbn [negb].
  destruct (contains "/company/" cut.1); cbn [negb]; [| reflexivity].
  rewrite clean_url_netloc; cbn [scheme netloc path params];
    [| exact Hne | rewrite Hjoin; right; exact Hstart].
  rewrite Hjoin. fold s. unfold strip_trailing_slashes.
  replace (endswith_char "/" s) with false; [reflexivity |].
  subst s. rewrite <- append_assoc, endswith_char_app by exact Hurl.
  symmetry. exact Hend.
Qed.

End Idempotence.

(** ** The claims on the scripted environment *)

Section Examples.
Import PyStr Urllib ResultParser Builtins PaginationHandler Searcher.
Import Claims SearcherClaims Trace Scripted.

Lemma results_distinct_in_first_seen_order_witness :
  let sys := start [Body page_of_three; Body page_one_again] in
  let run := search_company default_config "Acme" 5 1 3 sys in
  run.2 = Ok [acme; acme_labs; acme_corp] /\
  NoDup (link <$> [acme; acme_labs; acme_corp]) /\
  [acme; acme_labs; acme_corp]
    `sublist_of` fetched_records "Acme" (drop (length (trace sys)) (trace run.1)).
Proof.
  intros sys run.
  assert (Hrun : run = (run.1, Ok [acme; acme_labs; acme_corp]))
    by (vm_compute; reflexivity).
  destruct (results_distinct_in_first_seen_order
              default_config "Acme" 5 1 3 sys run.1 _ Hrun) as [Hnd [_ [Hsub _]]].
  split; [vm_compute; reflexivity |]. split; [exact Hnd | exact Hsub].
Defined.

Lemma result_count_within_cap_witness :
  Z.of_nat (length [acme; acme_labs]) <= 2.
Proof.
  pose (sys := start [Body page_of_three]).
  pose (run := search_company default_config "Acme" 2 1 1 sys).
  assert (Hrun : run = (run.1, Ok [acme; acme_labs]))
    by (vm_compute; reflexivity).
  apply (proj1 (result_count_within_cap
                  default_config "Acme" 2 1 1 sys run.1 _ ltac:(lia) Hrun)).
Defined.

(** C2, as worded, fails for a negative request: with
    results_per_company = -1 and one page of three distinct links, the
    slice drops the last record and two are returned. *)
Lemma cap_exceeded_for_negative_request :
  (search_company default_config "Acme" (-1) 1 1 (start [Body page_of_three])).2
  = Ok [acme; acme_labs] /\
  ~ caps_every_request default_config.
Proof.
  split; [vm_compute; reflexivity |].
  intros Hcap.
  pose (sys := start [Body page_of_three]).
  pose (run := search_company default_config "Acme" (-1) 1 1 sys).
  assert (Hrun : run = (run.1, Ok [acme; acme_labs]))
    by (vm_compute; reflexivity).
  specialize (Hcap "Acme" (-1) 1 1 sys run.1 _ Hrun). simpl in Hcap. lia.
Qed.



Lemma redirect_wrapper_unwrapped_witness :
  _normalize_linkedin_url "/go?url=//linkedin.com/company/acme"
  = Ok (Some "//linkedin.com/company/acme").
Proof.
  rewrite (proj1 redirect_wrapper_unwrapped "/go?url=//linkedin.com/company/acme"
             (mkParseResult "" "" "/go" "" "url=//linkedin.com/company/acme" ""));
    [vm_compute; reflexivity | discriminate | vm_compute; reflexivity
    | vm_compute; reflexivity | vm_compute; reflexivity].
Defined.

(** C5, as worded, fails for a relative target that begins with the
    letters "http": it has no scheme and no netloc and carries a [q]
    value, yet it is not unwrapped and is rejected. *)
Lemma relative_target_starting_with_http_not_unwrapped :
  is_absolute_url "httpx?q=https://www.linkedin.com/company/acme" = false /\
  _normalize_linkedin_url "httpx?q=https://www.linkedin.com/company/acme" = Ok None /\
  _normalize_linkedin_url "https://www.linkedin.com/company/acme"
  = Ok (Some "https://www.linkedin.com/company/acme") /\
  ~ unwraps_every_relative_target.
Proof.
  split; [vm_compute; reflexivity |]. split; [vm_compute; reflexivity |].
  split; [vm_compute; reflexivity |].
  intros Hc.
  specialize (Hc "httpx?q=https://www.linkedin.com/company/acme"
                 (mkParseResult "" "" "httpx" ""
                                "q=https://www.linkedin.com/company/acme" "")
                 "https://www.linkedin.com/company/acme" []).
  vm_compute in Hc.
  specialize (Hc ltac:(discriminate) eq_refl eq_refl eq_refl eq_refl).
  discriminate.
Qed.

Lemma trailing_separators_stripped_witness :
  exists parsed n,
    select_candidate "https://www.linkedin.com/company/acme//" = Ok parsed /\
    clean_url parsed = "https://www.linkedin.com/company/acme" +:+ slashes n.
Proof.
  destruct (proj1 trailing_separators_stripped
              "https://www.linkedin.com/company/acme//"
              "https://www.linkedin.com/company/acme")
    as [parsed [n [Hsel [Hclean _]]]]; [vm_compute; reflexivity |].
  exists parsed, n. split; assumption.
Defined.

(** C6, as worded, fails for a URL with two trailing separators: both
    are stripped, where stripping exactly one would leave
    ".../company/acme/". *)
Lemma two_trailing_separators_both_stripped :
  _normalize_linkedin_url "https://www.linkedin.com/company/acme//"
  = Ok (Some "https://www.linkedin.com/company/acme") /\
  strip_one_separator "https://www.linkedin.com/company/acme//"
  = "https://www.linkedin.com/company/acme/" /\
  ~ strips_exactly_one_separator.
Proof.
  split; [vm_compute; reflexivity |]. split; [vm_compute; reflexivity |].
  intros Hc.
  destruct (Hc "https://www.linkedin.com/company/acme//"
               "https://www.linkedin.com/company/acme")
    as [parsed [Hsel Hs]]; [vm_compute; reflexivity |].
  vm_compute in Hsel. injection Hsel as <-.
  vm_compute in Hs. discriminate.
Qed.

Lemma renormalizing_a_canonical_link_witness :
  exists parsed,
    urlparse "https://www.linkedin.com/company/acme" = Ok parsed /\
    _normalize_linkedin_url "https://www.linkedin.com/company/acme" =
    if contains "/company/" (path parsed)
    then Ok (Some "https://www.linkedin.com/company/acme") else Ok None.
Proof.
  apply (renormalizing_a_canonical_link
           "https://www.linkedin.com/company/acme/?trk=serp");
    vm_compute; reflexivity.
Defined.

(** C7, as worded, fails for the directory URL
    "https://www.linkedin.com/company/": it is accepted, its canonical
    link has lost the marker with the trailing separator, and normalizing
    that link again rejects it.  A canonical link that ends in [;] changes
    too: parsing and joining drop the empty parameters. *)
Lemma canonical_link_rejected_when_normalized_again :
  _normalize_linkedin_url "https://www.linkedin.com/company/"
  = Ok (Some "https://www.linkedin.com/company") /\
  _normalize_linkedin_url "https://www.linkedin.com/company" = Ok None /\
  _normalize_linkedin_url "https://www.linkedin.com/company/acme;/"
  = Ok (Some "https://www.linkedin.com/company/acme;") /\
  _normalize_linkedin_url "https://www.linkedin.com/company/acme;"
  = Ok (Some "https://www.linkedin.com/company/acme") /\
  ~ normalization_is_idempotent.
Proof.
  split; [vm_compute; reflexivity |]. split; [vm_compute; reflexivity |].
  split; [vm_compute; reflexivity |]. split; [vm_compute; reflexivity |].
  intros Hc.
  specialize (Hc "https://www.linkedin.com/company/"
                 "https://www.linkedin.com/company").
  vm_compute in Hc. specialize (Hc eq_refl). discriminate.
Qed.

Lemma init_checks_only_convertibility_witness :
  (exists cfg,
      __init__ (Some {[ "request_timeout_seconds" := VBool true;
                        "request_delay_seconds" := VInt 2 ]}) = Ok cfg /\
      request_timeout_seconds cfg = 1) /\
  __init__ (Some {[ "request_delay_seconds" := VNone ]}) = Raise TypeError /\
  __init__ (Some {[ "request_timeout_seconds" := VStr "soon";
                    "request_delay_seconds" := VNone ]}) = Raise ValueError.
Proof.
  split; [| split].
  - apply (proj1 (proj2 (proj2 (proj2
             (init_checks_only_convertibility
                {[ "request_timeout_seconds" := VBool true;
                   "request_delay_seconds" := VInt 2 ]})))) true);
      vm_compute; reflexivity.
  - destruct (init_checks_only_convertibility {[ "request_delay_seconds" := VNone ]})
      as [_ [_ [_ [_ [_ [Hinit [_ Hdelay]]]]]]].
    apply Hinit. right. split; [vm_compute; reflexivity |].
    apply Hdelay. left. split; [reflexivity |]. left. vm_compute. reflexivity.
  - destruct (init_checks_only_convertibility
                {[ "request_timeout_seconds" := VStr "soon";
                   "request_delay_seconds" := VNone ]})
      as [_ [_ [_ [_ [_ [Hinit [Htimeout _]]]]]]].
    apply Hinit. left. apply Htimeout. right. left. split; [reflexivity |].
    left. exists "soon". split; vm_compute; reflexivity.
Defined.

(** C9, as worded, fails: an integer where the endpoint URL should be is
    stored as it is, and the constructor returns. *)
Lemma invalid_types_accepted :
  has_invalid_type {[ "search_engine" := VInt 42 ]} = true /\
  __init__ (Some {[ "search_engine" := VInt 42 ]})
  = Ok (mkSearchConfig (VInt 42) default_query_template 10 (SFone 53 1024)
                       default_user_agent) /\
  ~ rejects_invalid_types.
Proof.
  split; [vm_compute; reflexivity |]. split; [vm_compute; reflexivity |].
  intros Hc. destruct (Hc {[ "search_engine" := VInt 42 ]}) as [e He];
    [vm_compute; reflexivity |].
  vm_compute in He. discriminate.
Qed.

End Examples.

(** * More on the code *)

(** ** The pages of a search *)

Section PagesFacts.
Import PaginationHandler.

Lemma py_range_length (start stop : Z) :
  length (py_range start stop) = Z.to_nat (stop - start).
Proof. unfold py_range. rewrite length_map, length_seq. reflexivity. Qed.

Lemma py_range_lookup (start stop : Z) (i : nat) (p : Z) :
  py_range start stop !! i = Some p ->
  p = start + Z.of_nat i /\ (i < Z.to_nat (stop - start))%nat.
Proof.
  unfold py_range. rewrite list_lookup_fmap.
  destruct (seq 0 (Z.to_nat (stop - start)) !! i) as [j |] eqn:E; [| discriminate].
  apply lookup_seq in E as [-> Hlt]. simpl. intros [= <-]. split; [reflexivity | lia].
Qed.

Lemma iter_pages_pages (start_page max_pages : Z) :
  let first := Z.max start_page 1 in
  let count := Z.max max_pages 1 in
  iter_pages start_page max_pages
  = (fun i => first + Z.of_nat i) <$> seq 0 (Z.to_nat count) /\
  length (iter_pages start_page max_pages) = Z.to_nat count.
Proof.
  intros first count.
  assert (E : iter_pages start_page max_pages = py_range first (first + count)).
  { unfold iter_pages, first, count.
    destruct (Z.ltb_spec start_page 1), (Z.ltb_spec max_pages 1);
      f_equal; lia. }
  rewrite E. split.
  - unfold py_range. replace (first + count - first) with count by lia. reflexivity.
  - rewrite py_range_length. f_equal. lia.
Qed.

(** X1. [iter_pages] yields max(max_pages, 1) consecutive pages that start
    at max(start_page, 1): no page is below 1, none comes twice, and the
    i-th one is the first plus i. *)
Theorem iter_pages_consecutive (start_page max_pages : Z) :
  let first := Z.max start_page 1 in
  let count := Z.max max_pages 1 in
  iter_pages start_page max_pages
  = (fun i => first + Z.of_nat i) <$> seq 0 (Z.to_nat count) /\
  length (iter_pages start_page max_pages) = Z.to_nat count /\
  Forall (fun p => 1 <= first <= p /\ p < first + count)
         (iter_pages start_page max_pages) /\
  NoDup (iter_pages start_page max_pages).
Proof.
  intros first count.
  assert (E : iter_pages start_page max_pages = py_range first (first + count)).
  { unfold iter_pages, first, count.
    destruct (Z.ltb_spec start_page 1), (Z.ltb_spec max_pages 1);
      f_equal; lia. }
  rewrite E. split; [| split; [| split]].
  - unfold py_range. replace (first + count - first) with count by lia. reflexivity.
  - rewrite py_range_length. f_equal. lia.
  - apply Forall_lookup. intros i p Hp.
    apply py_range_lookup in Hp as [-> Hi]. unfold first. lia.
  - apply NoDup_alt. intros i j p Hi Hj.
    apply py_range_lookup in Hi as [-> _].
    apply py_range_lookup in Hj as [Hj _]. lia.
Qed.

(** X2. The offsets of the pages that [iter_pages] yields tile the
    results: the i-th page starts at (max(start_page, 1) - 1 + i) times the
    page size, the page size counting as 1 when it is below 1, so each page
    starts where the one before it ends and no offset is negative. *)
Theorem page_offsets_tile (start_page max_pages per_page : Z) (i : nat) (page : Z) :
  iter_pages start_page max_pages !! i = Some page ->
  calculate_offset page per_page
  = (Z.max start_page 1 - 1 + Z.of_nat i) * Z.max per_page 1 /\
  0 <= calculate_offset page per_page /\
  calculate_offset (page + 1) per_page
  = calculate_offset page per_page + Z.max per_page 1.
Proof.
  intros Hp.
  destruct (iter_pages_pages start_page max_pages) as [E _].
  cbn zeta in E. rewrite E, list_lookup_fmap in Hp.
  destruct (seq 0 (Z.to_nat (Z.max max_pages 1)) !! i) as [j |] eqn:Ej;
    [| discriminate].
  apply lookup_seq in Ej as [-> _]. simpl in Hp. injection Hp as <-.
  rewrite !calculate_offset_max.
  replace (Z.max (Z.max start_page 1 + Z.of_nat i) 1)
    with (Z.max start_page 1 + Z.of_nat i) by lia.
  replace (Z.max (Z.max start_page 1 + Z.of_nat i + 1) 1)
    with (Z.max start_page 1 + Z.of_nat i + 1) by lia.
  split; [f_equal; lia |]. split; [apply Z.mul_nonneg_nonneg; lia | lia].
Qed.

End PagesFacts.

(** ** What normalization lets through *)

Section CanonicalFacts.
Import PyStr Urllib UrlShape ResultParser Reading.
Context `{UrllibExt}.
#[local] Arguments String.append !_ _ / : simpl nomatch.

Lemma has_char_app (c : ascii) (a b : string) :
  has_char c (a +:+ b) = has_char c a || has_char c b.
Proof.
  induction a as [| x a IH]; simpl; [reflexivity |].
  rewrite IH. apply orb_assoc.
Qed.

Lemma contains_app_l (sub a b : string) :
  contains sub b = true -> contains sub (a +:+ b) = true.
Proof.
  intros Hb. induction a as [| x a IH]; simpl; [exact Hb |].
  rewrite IH. apply orb_true_r.
Qed.

Lemma contains_app_r (sub a b : string) :
  contains sub a = true -> contains sub (a +:+ b) = true.
Proof.
  induction a as [| x a IH].
  - destruct sub; [intros _; destruct b; reflexivity | discriminate].
  - cbn [contains]. intros [Hp | Ha]%orb_true_iff.
    + assert (Hp' : String.prefix sub (String x a +:+ b) = true).
      { destruct (prefix_app _ _ Hp) as [r E]. rewrite E, append_assoc.
        apply prefix_of_app. }
      change (String x a +:+ b) with (String x (a +:+ b)) in *.
      cbn [contains]. rewrite Hp'. reflexivity.
    + simpl. rewrite (IH Ha). apply orb_true_r.
Qed.

Lemma scheme_prefix_chars (scheme : string) :
  well_formed_scheme scheme = true ->
  scheme_prefix scheme <> "" /\
  forall_chars is_path_char (scheme_prefix scheme) = true.
Proof.
  unfold scheme_prefix. destruct scheme as [| c0 scheme']; [intros _; split; [discriminate | reflexivity] |].
  cbn [well_formed_scheme String.eqb]. intros [_ Hs]%andb_true_iff.
  split; [discriminate |].
  rewrite forall_chars_app. apply andb_true_iff. split; [| reflexivity].
  eapply forall_chars_impl, Hs. intros c Hc. revert Hc.
  destruct c as [[] [] [] [] [] [] [] []]; vm_compute; congruence.
Qed.

(** X3. A link that normalization returns is not empty, holds no query
    mark, no fragment mark, no tab, carriage return or line feed, does not
    end in a path separator, and mentions the domain. *)
Theorem canonical_link_is_clean (raw_url s : string) :
  _normalize_linkedin_url raw_url = Ok (Some s) ->
  s <> "" /\
  has_char "?" s = false /\
  has_char "#" s = false /\
  forall_chars is_safe_char s = true /\
  endswith_char "/" s = false /\
  contains "linkedin.com" s = true.
Proof.
  intros Hn.
  destruct (canonical_shape _ _ Hn)
    as [sch [nl [url [-> [Hscheme [Hdom [Hnl [_ [Hpath [Hstart Hend]]]]]]]]]].
  destruct (scheme_prefix_chars sch Hscheme) as [Hne Hpre].
  assert (Hurl : url <> "") by (intros E; rewrite E in Hstart; discriminate).
  assert (Hnl' : forall_chars is_path_char nl = true).
  { eapply forall_chars_impl, Hnl. intros c. clear.
    destruct c as [[] [] [] [] [] [] [] []]; vm_compute; congruence. }
  assert (Hall : forall_chars is_path_char (scheme_prefix sch +:+ nl +:+ url) = true).
  { rewrite !forall_chars_app, Hpre, Hnl', Hpath. reflexivity. }
  split; [| split; [| split; [| split; [| split]]]].
  - destruct (scheme_prefix sch); [congruence | discriminate].
  - apply (forall_chars_has_char is_path_char); [reflexivity | exact Hall].
  - apply (forall_chars_has_char is_path_char); [reflexivity | exact Hall].
  - eapply forall_chars_impl, Hall. intros c. unfold is_path_char.
    intros [[Hc _]%andb_true_iff _]%andb_true_iff. exact Hc.
  - rewrite <- append_assoc, endswith_char_app by exact Hurl. exact Hend.
  - apply contains_app_l, contains_app_r, Hdom.
Qed.

(** X4. A target that begins with "http" is never unwrapped: when its own
    netloc does not mention the domain it is rejected, whatever its query
    carries. *)
Theorem http_target_not_unwrapped (raw_url : string) (parsed : ParseResult) :
  startswith raw_url "http" = true ->
  urlparse raw_url = Ok parsed ->
  contains "linkedin.com" (netloc parsed) = false ->
  _normalize_linkedin_url raw_url = Ok None.
Proof.
  intros Hhttp Hparse Hnet.
  unfold _normalize_linkedin_url, select_candidate.
  destruct (String.eqb_spec raw_url "") as [-> | _]; [reflexivity |].
  rewrite Hparse. cbn [mbind result_bind].
  unfold is_redirect_wrapper. rewrite Hhttp, andb_false_r.
  cbn [mbind result_bind]. unfold canonical_of. rewrite Hnet. reflexivity.
Qed.

Lemma urlparse_raises_value_error (url : string) (e : PyExc) :
  urlparse url = Raise e -> e = ValueError.
Proof.
  unfold urlparse. rewrite urlsplit_eq. cbn zeta.
  destruct (_ && _); cbn [mbind result_bind].
  - intros [= <-]. reflexivity.
  - destruct (_ && _); [destruct (_splitparams _) |]; discriminate.
Qed.

Lemma normalize_raises_value_error (raw_url : string) (e : PyExc) :
  _normalize_linkedin_url raw_url = Raise e -> e = ValueError.
Proof.
  unfold _normalize_linkedin_url, select_candidate.
  destruct (String.eqb raw_url ""); [discriminate |].
  destruct (urlparse raw_url) as [parsed | e'] eqn:E; cbn [mbind result_bind].
  - destruct (is_redirect_wrapper raw_url parsed); cbn [mbind result_bind];
      [| discriminate].
    destruct (candidate_list parsed) as [| c cs]; cbn [mbind result_bind];
      [discriminate |].
    destruct (urlparse c) as [p | e''] eqn:E'; cbn [mbind result_bind];
      [discriminate |].
    intros [= <-]. apply (urlparse_raises_value_error _ _ E').
  - intros [= <-]. apply (urlparse_raises_value_error _ _ E).
Qed.

(** ** The extraction of a page *)

Lemma extract_cons (anchor : Anchor) (html : Html) (search_query : string) :
  extract_linkedin_results (anchor :: html) search_query =
  if anchor_raises anchor then Raise ValueError
  else match extract_linkedin_results html search_query with
       | Ok results =>
           Ok (match record_of_anchor search_query anchor with
               | Some r => r :: results
               | None => results
               end)
       | Raise e => Raise e
       end.
Proof.
  cbn [extract_linkedin_results]. unfold anchor_raises, record_of_anchor.
  destruct (href anchor) as [[| c h] |];
    try (destruct (extract_linkedin_results html search_query); reflexivity).
  destruct (_normalize_linkedin_url (String c h)) as [[[| c' l] |] | e] eqn:E;
    cbn [mbind result_bind is_ok negb];
    try (destruct (extract_linkedin_results html search_query); reflexivity).
  rewrite (normalize_raises_value_error _ _ E). reflexivity.
Qed.

(** X5. When no anchor target makes [urlparse] raise, the extraction
    returns one record for each anchor whose target normalizes to a
    company link, in document order and nothing else: never more records
    than anchors, each with the query as [searchQuery] and with the anchor
    text, or the query when the text is empty, as title. *)
Theorem extraction_keeps_document_order (html : Html) (search_query : string) :
  existsb anchor_raises html = false ->
  extract_linkedin_results html search_query
  = Ok (omap (record_of_anchor search_query) html) /\
  (length (omap (record_of_anchor search_query) html) <= length html)%nat /\
  Forall (fun r => searchQuery r = search_query /\ link r <> "" /\
                   (search_query <> "" -> title r <> ""))
         (omap (record_of_anchor search_query) html).
Proof.
  intros Hok. split; [| split].
  - induction html as [| a html IH]; [reflexivity |].
    cbn [existsb] in Hok. apply orb_false_iff in Hok as [Ha Hrest].
    rewrite extract_cons, Ha, (IH Hrest). cbn [omap list_omap].
    fold (omap (record_of_anchor search_query) html).
    destruct (record_of_anchor search_query a); reflexivity.
  - clear Hok. induction html as [| a html IH]; [reflexivity |].
    cbn [omap list_omap]. fold (omap (record_of_anchor search_query) html).
    destruct (record_of_anchor search_query a); simpl; lia.
  - clear Hok. apply Forall_forall. intros r Hr.
    apply list_elem_of_omap in Hr as [a [_ Ha]].
    unfold record_of_anchor in Ha.
    destruct (href a) as [[| c h] |]; try discriminate.
    destruct (_normalize_linkedin_url (String c h)) as [[[| c' l] |] | e];
      try discriminate.
    injection Ha as <-. cbn [searchQuery link title].
    split; [reflexivity |]. split; [discriminate |].
    intros Hq. destruct (String.eqb_spec (text a) ""); [exact Hq | assumption].
Qed.

(** X6. One anchor whose target makes [urlparse] raise is fatal to its
    page: the extraction raises [ValueError] and returns no record, not
    even those of the anchors before it. *)
Theorem one_bad_link_fails_the_page
    (before after : Html) (anchor : Anchor) (search_query : string) :
  anchor_raises anchor = true ->
  extract_linkedin_results (before ++ anchor :: after) search_query
  = Raise ValueError.
Proof.
  intros Ha. induction before as [| b before IH]; cbn [app].
  - rewrite extract_cons, Ha. reflexivity.
  - rewrite extract_cons, IH. destruct (anchor_raises b); reflexivity.
Qed.

End CanonicalFacts.

(** ** The accumulation of a name *)

Section AccumulationFacts.
Import Searcher Trace Reading.

Lemma dedupe_all_seen (l : list ResultRecord) (seen : gset string) :
  (forall r, r ∈ l -> link r = "" \/ link r ∈ seen) ->
  dedupe l seen = ([], seen).
Proof.
  induction l as [| item l IH]; intros Hl; [reflexivity |].
  cbn [dedupe].
  assert (Hrest : dedupe l seen = ([], seen)).
  { apply IH. intros r Hr. apply Hl, list_elem_of_further, Hr. }
  destruct (String.eqb_spec (link item) "") as [_ | Hne]; [exact Hrest |].
  destruct (Hl item (list_elem_of_here _ _)) as [? | Hin]; [contradiction |].
  rewrite bool_decide_eq_true_2 by exact Hin. exact Hrest.
Qed.

Lemma dedupe_covers (l : list ResultRecord) (seen : gset string) :
  seen ⊆ (dedupe l seen).2 /\
  forall r, r ∈ l -> link r = "" \/ link r ∈ (dedupe l seen).2.
Proof.
  revert seen. induction l as [| item l IH]; intros seen; cbn [dedupe].
  - split; [reflexivity | intros r Hr; inversion Hr].
  - destruct (String.eqb_spec (link item) "") as [E | Hne].
    + destruct (IH seen) as [Hsub Hcov]. split; [exact Hsub |].
      intros r [-> | Hr]%elem_of_cons; [left; exact E | apply Hcov, Hr].
    + destruct (bool_decide_reflect (link item ∈ seen)) as [Hin | Hnin].
      * destruct (IH seen) as [Hsub Hcov]. split; [exact Hsub |].
        intros r [-> | Hr]%elem_of_cons; [right; set_solver | apply Hcov, Hr].
      * destruct (IH ({[link item]} ∪ seen)) as [Hsub Hcov].
        destruct (dedupe l ({[link item]} ∪ seen)) as [new_items seen'].
        cbn [fst snd] in *. split; [set_solver |].
        intros r [-> | Hr]%elem_of_cons; [right; set_solver | apply Hcov, Hr].
Qed.

(** X7. De-duplication is idempotent: a page that comes a second time,
    after its links were seen, brings no new item and leaves the set of
    seen links as it is. *)
Theorem dedupe_same_page_again (page_results : list ResultRecord) (seen : gset string) :
  dedupe page_results (dedupe page_results seen).2
  = ([], (dedupe page_results seen).2).
Proof.
  apply dedupe_all_seen. intros r Hr.
  apply (proj2 (dedupe_covers page_results seen) r Hr).
Qed.

Lemma state_after_in_sync (page_results : list ResultRecord) (st : SearchState) :
  in_sync st -> in_sync (state_after page_results st).
Proof.
  intros [Hseen Hnd]. unfold in_sync, state_after. cbn [all_results seen_links].
  destruct (dedupe_new page_results (seen_links st)) as [Hnew [Hfresh Hseen']].
  split.
  - rewrite Hseen', fmap_app, list_to_set_app_L, Hseen. reflexivity.
  - rewrite fmap_app. apply NoDup_app. split; [exact Hnd |]. split; [| exact Hnew].
    intros l Hl Hl'. apply list_elem_of_fmap in Hl' as [r [-> Hr]].
    destruct (Hfresh r Hr) as [_ Hnin]. apply Hnin. rewrite Hseen.
    apply elem_of_list_to_set. exact Hl.
Qed.

End AccumulationFacts.

(** ** The requests of a name *)

Section RequestFacts.
Import PyStr Builtins ResultParser PaginationHandler Searcher Trace Reading.
Context `{UrllibExt} `{PyBuiltins} `{Network}.
Variable config : SearchConfig.

Lemma requests_app (a b : list Event) :
  requests (a ++ b) = (requests a + requests b)%nat.
Proof. unfold requests, outcomes. rewrite omap_app, length_app. reflexivity. Qed.

Lemma sleeps_app (a b : list Event) :
  sleeps (a ++ b) = (sleeps a + sleeps b)%nat.
Proof. unfold sleeps. rewrite omap_app, length_app. reflexivity. Qed.

Lemma bodies_app (a b : list Event) : bodies (a ++ b) = bodies a ++ bodies b.
Proof. unfold bodies. apply omap_app. Qed.

(** X8. The loop over the pages only ever appends to the accumulation:
    what was accumulated stays, in place, as a prefix; the set of seen
    links only grows; and when the links of the accumulation were pairwise
    distinct and exactly the seen ones before, they are so after. *)
Theorem page_loop_only_appends
    (company : string) (results_per_company : Z) (pages : list Z)
    (st st' : SearchState) (sys sys' : Sys) :
  page_loop config company results_per_company pages st sys = (sys', Ok st') ->
  all_results st `prefix_of` all_results st' /\
  seen_links st ⊆ seen_links st' /\
  (in_sync st -> in_sync st').
Proof.
  intros Hloop. destruct (page_loop_inv _ _ _ _ _ _ _ _ Hloop) as [delta [_ ->]].
  unfold state_after at 1 2. cbn [all_results seen_links].
  split; [apply prefix_app_r; reflexivity |].
  split; [apply dedupe_covers | apply state_after_in_sync].
Qed.

Lemma process_page_events company rpc page html st sys :
  exists delta,
    trace (process_page config company rpc page html st sys).1 = trace sys ++ delta /\
    requests delta = 0%nat /\ bodies delta = [] /\ (sleeps delta <= 1)%nat.
Proof.
  rewrite process_page_run.
  destruct (extract_linkedin_results html company) as [page_results | e].
  - cbn zeta. destruct (rpc <=? _).
    { eexists. cbn [fst trace]. rewrite <- app_assoc. split; [reflexivity |].
      cbn. auto. }
    destruct (bool_decide _).
    { eexists. cbn [fst trace]. rewrite <- app_assoc. split; [reflexivity |].
      cbn. auto. }
    destruct (time_sleep (world sys) (request_delay_seconds config)) as [w [[] | e]];
      eexists; cbn [fst trace]; rewrite <- app_assoc;
      (split; [reflexivity | cbn; auto]).
  - exists []. rewrite app_nil_r. cbn. auto.
Qed.

Lemma page_loop_events company rpc pages : forall st sys,
  exists delta,
    trace (page_loop config company rpc pages st sys).1 = trace sys ++ delta /\
    (requests delta <= length pages)%nat /\
    (sleeps delta <= length (bodies delta))%nat.
Proof.
  induction pages as [| page rest IH]; intros st sys.
  - exists []. rewrite app_nil_r. cbn. auto.
  - rewrite page_loop_cons.
    destruct (format_company (query_template config) company) as [query | e].
    2:{ exists []. rewrite app_nil_r. cbn. split; [reflexivity | lia]. }
    cbn zeta.
    destruct (session_get _ _ _ _) as [w [html | | e]].
    + match goal with
      | |- context [process_page config company rpc page html st ?s2] =>
          destruct (process_page_events company rpc page html st s2)
            as [d [Hd [Hreq [Hbod Hsl]]]];
          destruct (process_page config company rpc page html st s2)
            as [sys3 [[st' []] | e]] eqn:Hpp
      end; cbn [fst trace] in Hd.
      * destruct (IH st' sys3) as [d' [Hd' [Hreq' Hsl']]].
        exists ([EvLog (MsgBuiltUrl company page (search_url config query page rpc));
                 EvLog (MsgFetching (search_url config query page rpc));
                 EvGet (search_url config query page rpc)
                       (request_timeout_seconds config) (Body html)] ++ d ++ d').
        rewrite Hd', Hd, <- !app_assoc. split; [reflexivity |].
        rewrite !requests_app, !sleeps_app, !bodies_app, !length_app, Hreq, Hbod.
        cbn. lia.
      * exists ([EvLog (MsgBuiltUrl company page (search_url config query page rpc));
                 EvLog (MsgFetching (search_url config query page rpc));
                 EvGet (search_url config query page rpc)
                       (request_timeout_seconds config) (Body html)] ++ d).
        cbn [fst]. rewrite Hd, <- !app_assoc. split; [reflexivity |].
        rewrite !requests_app, !sleeps_app, !bodies_app, !length_app, Hreq, Hbod.
        cbn. lia.
      * exists ([EvLog (MsgBuiltUrl company page (search_url config query page rpc));
                 EvLog (MsgFetching (search_url config query page rpc));
                 EvGet (search_url config query page rpc)
                       (request_timeout_seconds config) (Body html)] ++ d).
        cbn [fst]. rewrite Hd, <- !app_assoc. split; [reflexivity |].
        rewrite !requests_app, !sleeps_app, !bodies_app, !length_app, Hreq, Hbod.
        cbn. lia.
    + eexists. cbn [fst trace]. rewrite <- !app_assoc. split; [reflexivity |].
      cbn. lia.
    + eexists. cbn [fst trace]. split; [reflexivity |]. cbn. lia.
Qed.

(** X9. A call of [search_company] makes at most max(max_pages, 1)
    requests, whether it returns or raises, and it never sleeps more often
    than it has fetched a page. *)
Theorem search_company_request_bound
    (company : string) (results_per_company start_page max_pages : Z) (sys : Sys) :
  exists delta,
    trace (search_company config company results_per_company
                          start_page max_pages sys).1
    = trace sys ++ delta /\
    (requests delta <= Z.to_nat (Z.max max_pages 1))%nat /\
    (sleeps delta <= length (bodies delta))%nat.
Proof.
  rewrite search_company_run.
  match goal with
  | |- context [page_loop config company results_per_company ?pages ?st ?s1] =>
      destruct (page_loop_events company results_per_company pages st s1)
        as [d [Hd [Hreq Hsl]]];
      destruct (page_loop config company results_per_company pages st s1)
        as [sys1 [st' | e]]
  end; cbn [fst trace] in Hd.
  - exists ([EvLog (MsgSearching company)] ++ d ++
            [EvLog (MsgFound
                      (length (py_slice_to results_per_company (all_results st')))
                      company)]).
    cbn [fst trace]. rewrite Hd, <- !app_assoc. split; [reflexivity |].
    rewrite !requests_app, !sleeps_app, !bodies_app, !length_app.
    destruct (iter_pages_pages start_page max_pages) as [_ Hlen].
    cbn zeta in Hlen. rewrite Hlen in Hreq. cbn. lia.
  - exists ([EvLog (MsgSearching company)] ++ d).
    cbn [fst]. rewrite Hd, <- !app_assoc. split; [reflexivity |].
    rewrite !requests_app, !sleeps_app, !bodies_app, !length_app.
    destruct (iter_pages_pages start_page max_pages) as [_ Hlen].
    cbn zeta in Hlen. rewrite Hlen in Hreq. cbn. lia.
Qed.

End RequestFacts.

(** ** Caps below one, and the loop over the names *)

Section CompaniesFacts.
Import PyStr Builtins ResultParser PaginationHandler Searcher Trace Reading.
Context `{UrllibExt} `{PyBuiltins} `{Network}.
Variable config : SearchConfig.

(** X10. With a cap of zero or less the first page always ends the loop:
    [search_company] makes at most one request, and with a cap of zero it
    returns no record although it has fetched a page. *)
Theorem cap_below_one_costs_one_request
    (company : string) (results_per_company start_page max_pages : Z) (sys : Sys) :
  results_per_company <= 0 ->
  let run := search_company config company results_per_company
                            start_page max_pages sys in
  (exists delta, trace run.1 = trace sys ++ delta /\ (requests delta <= 1)%nat) /\
  (results_per_company = 0 -> forall res, run.2 = Ok res -> res = []).
Proof.
  intros Hcap run. subst run. rewrite search_company_run, iter_pages_cons.
  rewrite page_loop_cons. cbn [world trace].
  destruct (format_company (query_template config) company) as [query | e].
  2:{ cbn [fst snd]. split; [| discriminate].
      eexists. split; [reflexivity |]. cbn. lia. }
  cbn zeta.
  destruct (session_get _ _ _ _) as [w [html | | e]].
  - rewrite process_page_run. cbn [world trace].
    destruct (extract_linkedin_results html company) as [page_results | e].
    + cbn zeta.
      destruct (Z.leb_spec results_per_company
                  (Z.of_nat (length (all_results
                     (state_after page_results (mkSearchState [] ∅))))));
        [| lia].
      cbn [fst snd trace]. split.
      * eexists. rewrite <- !app_assoc. split; [reflexivity |]. cbn. lia.
      * intros -> res [= <-]. reflexivity.
    + cbn [fst snd trace]. split; [| discriminate].
      eexists. rewrite <- !app_assoc. split; [reflexivity |]. cbn. lia.
  - cbn [fst snd trace all_results]. split.
    + eexists. rewrite <- !app_assoc. split; [reflexivity |]. cbn. lia.
    + intros _ res [= <-]. apply py_slice_to_nil.
  - cbn [fst snd trace]. split; [| discriminate].
    eexists. rewrite <- !app_assoc. split; [reflexivity |]. cbn. lia.
Qed.

Lemma companies_loop_acc (companies : list string) (rpc sp mp : Z) :
  forall combined sys,
    companies_loop config companies rpc sp mp combined sys =
    ((companies_loop config companies rpc sp mp [] sys).1,
     combined ++ (companies_loop config companies rpc sp mp [] sys).2).
Proof.
  induction companies as [| name rest IH]; intros combined sys.
  - cbn. rewrite app_nil_r. reflexivity.
  - cbn [companies_loop].
    destruct (String.eqb (strip name) ""); [apply IH |].
    match goal with
    | |- context [(?m ≫= ?f) sys] => destruct ((m ≫= f) sys) as [sys' [res | e]]
    end.
    + rewrite (IH (combined ++ res)), (IH ([] ++ res)). cbn [fst snd app].
      rewrite app_assoc. reflexivity.
    + apply IH.
Qed.

Lemma companies_loop_app (names1 names2 : list string) (rpc sp mp : Z) :
  forall combined sys,
    companies_loop config (names1 ++ names2) rpc sp mp combined sys =
    companies_loop config names2 rpc sp mp
      (companies_loop config names1 rpc sp mp combined sys).2
      (companies_loop config names1 rpc sp mp combined sys).1.
Proof.
  induction names1 as [| name rest IH]; intros combined sys.
  - reflexivity.
  - cbn [app companies_loop].
    destruct (String.eqb (strip name) ""); [apply IH |].
    match goal with
    | |- context [(?m ≫= ?f) sys] => destruct ((m ≫= f) sys) as [sys' [res | e]]
    end; apply IH.
Qed.

(** X11. [search_for_companies] works name by name: searching a list of
    names that is cut in two gives the records of the first part, then
    those of the second part searched in the world that the first part
    left. *)
Theorem search_for_companies_app
    (names1 names2 : list string) (rpc sp mp : Z) (sys : Sys) :
  search_for_companies config (names1 ++ names2) rpc sp mp sys =
  let first := search_for_companies config names1 rpc sp mp sys in
  let second := search_for_companies config names2 rpc sp mp first.1 in
  (second.1, first.2 ++ second.2).
Proof.
  unfold search_for_companies. cbn zeta.
  rewrite companies_loop_app. apply companies_loop_acc.
Qed.

Lemma search_company_records company rpc sp mp sys sys' res :
  search_company config company rpc sp mp sys = (sys', Ok res) ->
  forall r, r ∈ res ->
  searchQuery r = company /\
  exists raw_url, _normalize_linkedin_url raw_url = Ok (Some (link r)).
Proof.
  intros Hrun r Hr.
  pose proof (search_company_inv _ _ _ _ _ _ _ _ Hrun) as Hres.
  destruct (py_slice_to_take rpc
              (dedupe (fetched_records company
                         (drop (length (trace sys)) (trace sys'))) ∅).1) as [k Hk].
  rewrite Hk in Hres.
  apply (fetched_records_canonical company (drop (length (trace sys)) (trace sys'))).
  eapply elem_of_sublist; [| apply dedupe_sublist].
  eapply elem_of_sublist; [exact Hr |]. rewrite Hres. apply sublist_take.
Qed.

(** X12. Every record that [search_for_companies] returns was found for
    one of the names: its [searchQuery] is the stripped form, not empty,
    of a name of the input, and its link is a link that normalization
    returns. *)
Theorem aggregate_records_have_a_name
    (companies : list string) (rpc sp mp : Z) (sys : Sys) (r : ResultRecord) :
  r ∈ (search_for_companies config companies rpc sp mp sys).2 ->
  (exists name, name ∈ companies /\ strip name <> "" /\
                searchQuery r = strip name) /\
  exists raw_url, _normalize_linkedin_url raw_url = Ok (Some (link r)).
Proof.
  unfold search_for_companies.
  revert sys. induction companies as [| name rest IH]; intros sys.
  - cbn. intros Hr. inversion Hr.
  - cbn [companies_loop].
    assert (Hrest : forall sys0,
               r ∈ (companies_loop config rest rpc sp mp [] sys0).2 ->
               (exists name0, name0 ∈ name :: rest /\ strip name0 <> "" /\
                              searchQuery r = strip name0) /\
               exists raw_url, _normalize_linkedin_url raw_url = Ok (Some (link r))).
    { intros sys0 Hr. destruct (IH sys0 Hr) as [[n [Hn Hq]] Hl].
      split; [| exact Hl]. exists n. split; [apply list_elem_of_further, Hn | exact Hq]. }
    destruct (String.eqb_spec (strip name) "") as [_ | Hne]; [apply Hrest |].
    unfold mbind at 1. unfold M_bind at 1. rewrite log_run.
    match goal with
    | |- context [search_company config (strip name) rpc sp mp ?s1] =>
        destruct (search_company config (strip name) rpc sp mp s1)
          as [sys' [res | e]] eqn:Hrun
    end; [| apply Hrest].
    rewrite companies_loop_acc. cbn [fst snd app].
    intros [Hr | Hr]%elem_of_app; [| apply (Hrest _ Hr)].
    destruct (search_company_records _ _ _ _ _ _ _ Hrun r Hr) as [Hq Hl].
    split; [| exact Hl]. exists name.
    split; [apply list_elem_of_here | split; [exact Hne | exact Hq]].
Qed.

Lemma companies_loop_bad_template
    (name : string) (rest : list string) (rpc sp mp : Z)
    (combined : list ResultRecord) (sys : Sys) :
  (forall template, query_template config <> VStr template) ->
  strip name <> "" ->
  companies_loop config (name :: rest) rpc sp mp combined sys =
  companies_loop config rest rpc sp mp combined
    {| world := world sys;
       trace := trace sys ++
                [EvLog (MsgStarting (strip name));
                 EvLog (MsgSearching (strip name));
                 EvLog (MsgUnexpected (strip name) AttributeError)] |}.
Proof.
  intros Htemplate Hne. cbn [companies_loop].
  destruct (String.eqb_spec (strip name) "") as [He | _]; [contradiction |].
  unfold mbind at 1. unfold M_bind at 1. rewrite log_run.
  rewrite search_company_run, iter_pages_cons, page_loop_cons.
  assert (Hfmt : format_company (query_template config) (strip name)
                 = Raise AttributeError).
  { unfold format_company. destruct (query_template config) as [| | | | t | |];
      try reflexivity. destruct (Htemplate t eq_refl). }
  rewrite Hfmt. cbn [world trace]. rewrite <- !app_assoc. reflexivity.
Qed.

(** X13. A query template that is not a string, which the constructor
    accepts, makes every name fail before anything is requested:
    [search_for_companies] returns no record and makes no request. *)
Theorem template_not_a_string_finds_nothing
    (companies : list string) (rpc sp mp : Z) (sys : Sys) :
  (forall template, query_template config <> VStr template) ->
  let run := search_for_companies config companies rpc sp mp sys in
  run.2 = [] /\
  exists delta, trace run.1 = trace sys ++ delta /\ requests delta = 0%nat.
Proof.
  intros Htemplate run. subst run. unfold search_for_companies.
  revert sys. induction companies as [| name rest IH]; intros sys.
  - cbn. split; [reflexivity |]. exists []. rewrite app_nil_r. auto.
  - destruct (String.eqb_spec (strip name) "") as [He | Hne].
    + cbn [companies_loop]. rewrite He. cbn [String.eqb]. apply IH.
    + rewrite (companies_loop_bad_template _ _ _ _ _ _ _ Htemplate Hne).
      match goal with
      | |- context [companies_loop config rest rpc sp mp [] ?s1] =>
          destruct (IH s1) as [Hres [d [Hd Hreq]]]
      end.
      split; [exact Hres |].
      exists ([EvLog (MsgStarting (strip name)); EvLog (MsgSearching (strip name));
               EvLog (MsgUnexpected (strip name) AttributeError)] ++ d).
      split.
      * rewrite Hd. cbn [trace]. rewrite <- app_assoc. reflexivity.
      * rewrite requests_app, Hreq. reflexivity.
Qed.

End CompaniesFacts.

(** ** The query string of the search URL *)

Section QueryFacts.
Import PyStr Builtins PaginationHandler Searcher Reading.
#[local] Arguments String.append !_ _ / : simpl nomatch.

Lemma split_no_sep (c : ascii) (s : string) :
  has_char c s = false -> split c s = [s].
Proof.
  induction s as [| a s IH]; simpl; [reflexivity |].
  intros [Ha Hs]%orb_false_iff. rewrite Ha, (IH Hs). reflexivity.
Qed.

Lemma split_app_sep (c : ascii) (a b : string) :
  has_char c a = false -> split c (a +:+ String c b) = a :: split c b.
Proof.
  induction a as [| x a IH]; simpl.
  - intros _. rewrite Ascii.eqb_refl. reflexivity.
  - intros [Hx Ha]%orb_false_iff. rewrite Hx, (IH Ha). reflexivity.
Qed.

Lemma hex_digit_unreserved (n : N) :
  (n < 16)%N -> is_unreserved (hex_digit n) = true.
Proof.
  intros Hn.
  assert (Hall : forallb (fun k => is_unreserved (hex_digit (N.of_nat k)))
                         (seq 0 16) = true) by (vm_compute; reflexivity).
  rewrite forallb_forall in Hall. specialize (Hall (N.to_nat n)).
  rewrite N2Nat.id in Hall. apply Hall, in_seq. lia.
Qed.

Lemma pretty_N_char_unreserved (n : N) :
  (n < 10)%N -> is_unreserved (pretty_N_char n) = true.
Proof.
  intros Hn.
  assert (Hall : forallb (fun k => is_unreserved (pretty_N_char (N.of_nat k)))
                         (seq 0 10) = true) by (vm_compute; reflexivity).
  rewrite forallb_forall in Hall. specialize (Hall (N.to_nat n)).
  rewrite N2Nat.id in Hall. apply Hall, in_seq. lia.
Qed.

Lemma percent_byte_quoted (b : N) :
  (b < 256)%N -> forall_chars is_quoted_char (percent_byte b) = true.
Proof.
  intros Hb. unfold percent_byte, is_quoted_char. cbn [forall_chars].
  rewrite !hex_digit_unreserved.
  - reflexivity.
  - apply N.mod_lt. discriminate.
  - apply N.Div0.div_lt_upper_bound. lia.
Qed.

Lemma code_lt_256 (c : ascii) : (code c < 256)%N.
Proof. destruct c as [[] [] [] [] [] [] [] []]; vm_compute; reflexivity. Qed.

Lemma quote_plus_char_quoted (c : ascii) :
  forall_chars is_quoted_char (quote_plus_char c) = true.
Proof.
  unfold quote_plus_char. pose proof (code_lt_256 c) as Hc.
  destruct (is_unreserved c) eqn:Hu.
  - cbn [forall_chars]. unfold is_quoted_char. rewrite Hu. reflexivity.
  - destruct (Ascii.eqb c " "); [reflexivity |].
    destruct (N.ltb_spec (code c) 128) as [Hlt | Hge].
    + apply percent_byte_quoted. lia.
    + rewrite forall_chars_app, !percent_byte_quoted; [reflexivity | |].
      * pose proof (N.mod_lt (code c) 64 ltac:(discriminate)). lia.
      * assert (code c / 64 < 4)%N
          by (apply N.Div0.div_lt_upper_bound; lia).
        lia.
Qed.

Lemma quote_plus_quoted (s : string) :
  forall_chars is_quoted_char (quote_plus s) = true.
Proof.
  induction s as [| c s IH]; [reflexivity |].
  cbn [quote_plus]. rewrite forall_chars_app, quote_plus_char_quoted, IH.
  reflexivity.
Qed.

Lemma quote_plus_unreserved (s : string) :
  forall_chars is_unreserved s = true -> quote_plus s = s.
Proof.
  induction s as [| c s IH]; [reflexivity |].
  cbn [forall_chars quote_plus]. intros [Hc Hs]%andb_true_iff.
  unfold quote_plus_char. rewrite Hc, (IH Hs). reflexivity.
Qed.

Lemma pretty_N_go_unreserved (x : N) (s : string) :
  forall_chars is_unreserved s = true ->
  forall_chars is_unreserved (pretty_N_go x s) = true.
Proof.
  revert s. induction (N.lt_wf_0 x) as [x _ IH]. intros s Hs.
  destruct (N.eq_dec x 0%N) as [-> | Hx].
  - rewrite pretty_N_go_0. exact Hs.
  - rewrite pretty_N_go_step by lia. apply IH.
    + apply N.div_lt; lia.
    + cbn [forall_chars]. rewrite Hs, andb_true_r.
      apply pretty_N_char_unreserved, N.mod_lt. discriminate.
Qed.

Lemma pretty_N_unreserved (x : N) :
  forall_chars is_unreserved (pretty x) = true.
Proof.
  unfold pretty, pretty_N. destruct (decide (x = 0%N)); [reflexivity |].
  apply pretty_N_go_unreserved. reflexivity.
Qed.

Lemma pretty_Z_unreserved (z : Z) :
  forall_chars is_unreserved (pretty z) = true.
Proof.
  destruct z as [| p | p]; [reflexivity | apply pretty_N_unreserved |].
  change (pretty (Z.neg p)) with ("-" +:+ pretty (N.pos p)).
  rewrite forall_chars_app, pretty_N_unreserved. reflexivity.
Qed.

Lemma quoted_no_separator (s : string) :
  forall_chars is_quoted_char s = true -> has_char "&" s = false.
Proof. apply forall_chars_has_char. reflexivity. Qed.

Section WithConfig.
Context `{UrllibExt} `{PyBuiltins} `{Network}.
Variable config : SearchConfig.

Lemma search_url_fields (query : string) (page results_per_page : Z) :
  exists qs,
    search_url config query page results_per_page
    = fstring (search_engine config) +:+ "?" +:+ qs /\
    split "&" qs
    = ["q=" +:+ quote_plus query;
       "first=" +:+ pretty (calculate_offset page results_per_page + 1);
       "count=" +:+ pretty results_per_page] /\
    forall_chars is_quoted_char (quote_plus query) = true /\
    1 <= calculate_offset page results_per_page + 1.
Proof.
  exists (urlencode [("q", query);
                     ("first", pretty (calculate_offset page results_per_page + 1));
                     ("count", pretty results_per_page)]).
  split; [reflexivity |]. split; [| split].
  - unfold urlencode. cbn [map join].
    rewrite !(quote_plus_unreserved (pretty _)) by apply pretty_Z_unreserved.
    change (quote_plus "q") with "q". change (quote_plus "first") with "first".
    change (quote_plus "count") with "count".
    change ("q" +:+ "=" +:+ quote_plus query) with ("q=" +:+ quote_plus query).
    set (first := pretty (calculate_offset page results_per_page + 1)).
    set (count := pretty results_per_page).
    change ("first" +:+ "=" +:+ first) with ("first=" +:+ first).
    change ("count" +:+ "=" +:+ count) with ("count=" +:+ count).
    change ("&" +:+ ("first=" +:+ first) +:+ "&" +:+ "count=" +:+ count)
      with (String "&" (("first=" +:+ first) +:+ String "&" ("count=" +:+ count))).
    assert (Hpretty : forall z : Z, has_char "&" (pretty z) = false).
    { intros z. apply quoted_no_separator.
      apply (forall_chars_impl is_unreserved); [| apply pretty_Z_unreserved].
      intros c Hc. unfold is_quoted_char. rewrite Hc. reflexivity. }
    assert (Hfirst : has_char "&" ("first=" +:+ first) = false).
    { rewrite has_char_app. unfold first. rewrite Hpretty. reflexivity. }
    assert (Hcount : has_char "&" ("count=" +:+ count) = false).
    { rewrite has_char_app. unfold count. rewrite Hpretty. reflexivity. }
    assert (Hq : has_char "&" ("q=" +:+ quote_plus query) = false).
    { rewrite has_char_app, (quoted_no_separator _ (quote_plus_quoted query)).
      reflexivity. }
    rewrite (split_app_sep _ _ _ Hq), (split_app_sep _ _ _ Hfirst),
      (split_no_sep _ _ Hcount).
    reflexivity.
  - apply quote_plus_quoted.
  - rewrite calculate_offset_max.
    assert (0 <= (Z.max page 1 - 1) * Z.max results_per_page 1)
      by (apply Z.mul_nonneg_nonneg; lia).
    lia.
Qed.

(** X14. Whatever the name and the template put into the query, the
    query string of the URL that [_build_search_url] returns has exactly
    three fields between its separators: the quoted query, the offset plus
    one and the page size, both written as they are.  The quoted query
    holds unreserved characters, ['+'] and ['%'] only, so a name cannot
    add a field, and the first result asked for is never below one. *)
Theorem built_url_has_three_fields
    (company : string) (page results_per_page : Z) (sys sys' : Sys) (url : string) :
  _build_search_url config company page results_per_page sys = (sys', Ok url) ->
  exists query qs,
    format_company (query_template config) company = Ok query /\
    url = fstring (search_engine config) +:+ "?" +:+ qs /\
    split "&" qs
    = ["q=" +:+ quote_plus query;
       "first=" +:+ pretty (calculate_offset page results_per_page + 1);
       "count=" +:+ pretty results_per_page] /\
    forall_chars is_quoted_char (quote_plus query) = true /\
    1 <= calculate_offset page results_per_page + 1.
Proof.
  rewrite build_search_url_run.
  destruct (format_company (query_template config) company) as [query | e];
    [| discriminate].
  cbn zeta. intros [= _ <-].
  destruct (search_url_fields query page results_per_page) as [qs Hqs].
  exists query, qs. split; [reflexivity | exact Hqs].
Qed.

End WithConfig.
End QueryFacts.

(** ** The names read from the input file *)

Section NamesFacts.
Import PyStr Builtins Searcher Main.

Lemma rstrip_p_idem (p : ascii -> bool) (s : string) :
  rstrip_p p (rstrip_p p s) = rstrip_p p s.
Proof.
  induction s as [| a s IH]; [reflexivity |].
  cbn [rstrip_p]. destruct (rstrip_p p s) as [| b r] eqn:E.
  - destruct (p a) eqn:Ha; [reflexivity |]. cbn [rstrip_p]. rewrite Ha. reflexivity.
  - change (rstrip_p p (String a (String b r)))
      with (match rstrip_p p (String b r) with
            | "" => if p a then "" else String a ""
            | r0 => String a r0
            end).
    rewrite IH. reflexivity.
Qed.

Lemma lstrip_head (p : ascii -> bool) (s : string) :
  match lstrip p s with
  | "" => True
  | String a _ => p a = false
  end.
Proof.
  induction s as [| a s IH]; [exact I |].
  cbn [lstrip]. destruct (p a) eqn:Ha; [exact IH | exact Ha].
Qed.

Lemma lstrip_rstrip_p (p : ascii -> bool) (s : string) :
  lstrip p (rstrip_p p (lstrip p s)) = rstrip_p p (lstrip p s).
Proof.
  pose proof (lstrip_head p s) as Hhead.
  destruct (lstrip p s) as [| a t]; [reflexivity |].
  cbn [rstrip_p]. destruct (rstrip_p p t).
  - rewrite Hhead. cbn [lstrip]. rewrite Hhead. reflexivity.
  - cbn [lstrip]. rewrite Hhead. reflexivity.
Qed.

Lemma strip_idem (s : string) : strip (strip s) = strip s.
Proof.
  unfold strip. rewrite lstrip_rstrip_p. apply rstrip_p_idem.
Qed.

Lemma read_names_spec (lines : list string) :
  omap (fun line => let name := strip line in
                    if String.eqb name "" then None else Some name) lines
  = filter (fun name => name <> "") (strip <$> lines).
Proof.
  induction lines as [| line rest IH]; [reflexivity |].
  cbn [omap list_omap fmap list_fmap]. rewrite filter_cons.
  cbn zeta. destruct (String.eqb_spec (strip line) "") as [He | Hne].
  - rewrite decide_False by (intros Hn; apply Hn; exact He). exact IH.
  - rewrite decide_True by exact Hne. f_equal. exact IH.
Qed.

(** X15. The outcomes of [read_company_names], each with the files that
    lead to it.  It returns only for a file that was read to its end, and
    then the list is never empty and holds, in the order of the lines,
    the stripped lines that are not empty, every name already stripped.
    It raises its [ValueError] exactly for a file that was read to its
    end and has no such line, [FileNotFoundError] exactly when the path
    is not a file, and what opening or decoding raised exactly when that
    happened. *)
Theorem names_read_are_stripped_lines (input_file : InputFile) :
  match read_company_names input_file with
  | inr companies =>
      exists lines,
        input_file = Readable lines /\
        companies <> [] /\
        companies = filter (fun name => name <> "") (strip <$> lines) /\
        Forall (fun name => strip name = name /\ name <> "") companies
  | inl NoCompanyNames =>
      exists lines,
        input_file = Readable lines /\
        Forall (fun line => strip line = "") lines
  | inl FileNotFoundError => input_file = NotAFile
  | inl (ReadFailed e) => input_file = Unreadable e
  end.
Proof.
  destruct input_file as [| e | lines]; cbn [read_company_names];
    [reflexivity | reflexivity |].
  cbn zeta. rewrite read_names_spec.
  destruct (filter _ (strip <$> lines)) as [| name names] eqn:E.
  - exists lines. split; [reflexivity |]. apply Forall_forall. intros line Hline.
    destruct (String.eqb_spec (strip line) "") as [He | Hne]; [exact He |].
    assert (Hin : strip line ∈ filter (fun name => name <> "") (strip <$> lines)).
    { apply list_elem_of_filter. split; [exact Hne |].
      apply list_elem_of_fmap. exists line. auto. }
    rewrite E in Hin. inversion Hin.
  - exists lines. split; [reflexivity |].
    split; [discriminate |]. split; [symmetry; exact E |].
    rewrite <- E. apply Forall_forall. intros n Hn.
    apply list_elem_of_filter in Hn as [Hne Hn].
    apply list_elem_of_fmap in Hn as [line [-> _]].
    split; [apply strip_idem | exact Hne].
Qed.

Section WithWorld.
Context `{UrllibExt} `{PyBuiltins} `{Network}.
Variable config : SearchConfig.

Lemma companies_loop_lines (lines : list string) (rpc sp mp : Z)
    (combined : list ResultRecord) (sys : Sys) :
  companies_loop config
    (omap (fun line => let name := strip line in
                       if String.eqb name "" then None else Some name) lines)
    rpc sp mp combined sys
  = companies_loop config lines rpc sp mp combined sys.
Proof.
  revert combined sys. induction lines as [| line rest IH]; intros combined sys;
    [reflexivity |].
  cbn [omap list_omap]. cbn zeta.
  destruct (String.eqb_spec (strip line) "") as [He | Hne].
  - cbn [companies_loop]. rewrite He. cbn [String.eqb]. apply IH.
  - cbn [companies_loop]. rewrite strip_idem.
    destruct (String.eqb_spec (strip line) "") as [He | _]; [contradiction |].
    destruct ((log (MsgStarting (strip line))
               ≫= λ _ : (), search_company config (strip line) rpc sp mp) sys)
      as [sys' [res | e]]; apply IH.
Qed.

(** X16. The searcher strips and filters the names again, and this changes
    nothing for names that [read_company_names] returned: searching them
    is searching the lines of the file, no name is skipped and none is
    altered. *)
Theorem names_read_are_searched_as_lines
    (lines companies : list string) (rpc sp mp : Z) (sys : Sys) :
  read_company_names (Readable lines) = inr companies ->
  search_for_companies config companies rpc sp mp sys
  = search_for_companies config lines rpc sp mp sys /\
  Forall (fun name => strip name = name /\ String.eqb (strip name) "" = false)
         companies.
Proof.
  intros Hread. unfold read_company_names in Hread.
  destruct (omap _ lines) as [| name names] eqn:E; [discriminate |].
  injection Hread as <-. rewrite <- E. split.
  - unfold search_for_companies. apply companies_loop_lines.
  - rewrite read_names_spec. apply Forall_forall. intros n Hn.
    apply list_elem_of_filter in Hn as [Hne Hn].
    apply list_elem_of_fmap in Hn as [line [-> _]].
    rewrite strip_idem. split; [reflexivity |]. apply String.eqb_neq. exact Hne.
Qed.

End WithWorld.
End NamesFacts.

(** ** Examples for the facts beyond the claims *)

Section MoreExamples.
Import PyStr Urllib ResultParser Builtins PaginationHandler Searcher.
Import Trace Scripted Main Reading.

Lemma page_offsets_tile_witness :
  iter_pages 2 3 !! 1%nat = Some 3 /\
  calculate_offset 3 10 = 20 /\
  calculate_offset 4 10 = 30.
Proof.
  assert (Hpage : iter_pages 2 3 !! 1%nat = Some 3) by reflexivity.
  destruct (page_offsets_tile 2 3 10 1 3 Hpage) as [Hoff [_ Hnext]].
  split; [exact Hpage |]. split; [rewrite Hoff; reflexivity |].
  change (3 + 1) with 4 in Hnext. rewrite Hnext, Hoff. reflexivity.
Defined.

Lemma canonical_link_is_clean_witness :
  _normalize_linkedin_url "https://www.linkedin.com/company/acme/?trk=serp#top"
  = Ok (Some "https://www.linkedin.com/company/acme") /\
  has_char "?" "https://www.linkedin.com/company/acme" = false /\
  endswith_char "/" "https://www.linkedin.com/company/acme" = false.
Proof.
  assert (Hnorm : _normalize_linkedin_url
                    "https://www.linkedin.com/company/acme/?trk=serp#top"
                  = Ok (Some "https://www.linkedin.com/company/acme"))
    by (vm_compute; reflexivity).
  destruct (canonical_link_is_clean _ _ Hnorm) as [_ [Hq [_ [_ [Hend _]]]]].
  split; [exact Hnorm |]. split; [exact Hq | exact Hend].
Defined.

Lemma http_target_not_unwrapped_witness :
  _normalize_linkedin_url
    "https://www.example.com/url?q=https://www.linkedin.com/company/acme"
  = Ok None.
Proof.
  destruct (urlparse "https://www.example.com/url?q=https://www.linkedin.com/company/acme")
    as [parsed | e] eqn:Hparse; [| vm_compute in Hparse; discriminate].
  apply (http_target_not_unwrapped _ parsed); [reflexivity | exact Hparse |].
  vm_compute in Hparse. injection Hparse as <-. vm_compute. reflexivity.
Defined.

Lemma extraction_keeps_document_order_witness :
  extract_linkedin_results page_of_three "Acme"
  = Ok [acme; acme_labs;
        mkRecord "Acme again" "https://www.linkedin.com/company/acme" "Acme";
        acme_corp].
Proof.
  assert (Hsafe : existsb anchor_raises page_of_three = false)
    by (vm_compute; reflexivity).
  rewrite (proj1 (extraction_keeps_document_order page_of_three "Acme" Hsafe)).
  vm_compute. reflexivity.
Defined.

Lemma one_bad_link_fails_the_page_witness :
  extract_linkedin_results (page_one ++ anchor "http://[company" "Acme" :: page_one)
                           "Acme"
  = Raise ValueError.
Proof.
  apply one_bad_link_fails_the_page. vm_compute. reflexivity.
Defined.

Lemma page_loop_only_appends_witness :
  let st := mkSearchState [acme] {[link acme]} in
  let run := page_loop default_config "Acme" 5 [2] st (start [Body page_of_three]) in
  match run.2 with
  | Ok st' => all_results st `prefix_of` all_results st' /\ in_sync st'
  | Raise _ => False
  end.
Proof.
  intros st run.
  destruct run as [sys' [st' | e]] eqn:Hrun;
    [| apply (f_equal snd) in Hrun; vm_compute in Hrun; discriminate].
  cbn [snd].
  destruct (page_loop_only_appends default_config "Acme" 5 [2] st st' _ sys' Hrun)
    as [Hprefix [_ Hsync]].
  split; [exact Hprefix |]. apply Hsync. split.
  - cbn. set_solver.
  - cbn. apply NoDup_singleton.
Defined.

Lemma cap_below_one_costs_one_request_witness :
  let sys := start [Body page_of_three; Body page_one_again] in
  let run := search_company default_config "Acme" 0 1 3 sys in
  (exists delta, trace run.1 = trace sys ++ delta /\ (requests delta <= 1)%nat) /\
  run.2 = Ok [].
Proof.
  intros sys run.
  destruct (cap_below_one_costs_one_request default_config "Acme" 0 1 3 sys
              ltac:(lia)) as [Hone Hnone].
  split; [exact Hone |].
  destruct run.2 as [res | e] eqn:Hres.
  - rewrite (Hnone eq_refl res Hres). reflexivity.
  - vm_compute in Hres. discriminate.
Defined.

Lemma aggregate_records_have_a_name_witness :
  let run := search_for_companies default_config [" Acme "] 5 1 1
                                  (start [Body page_one]) in
  acme ∈ run.2 /\
  exists name, name ∈ [" Acme "] /\ strip name <> "" /\ searchQuery acme = strip name.
Proof.
  intros run.
  assert (Hres : run.2 = [acme]) by (vm_compute; reflexivity).
  assert (Hin : acme ∈ run.2) by (rewrite Hres; apply list_elem_of_here).
  split; [exact Hin |].
  apply (aggregate_records_have_a_name default_config [" Acme "] 5 1 1
           (start [Body page_one]) acme Hin).
Defined.

Lemma template_not_a_string_finds_nothing_witness :
  let config := mkSearchConfig default_search_engine (VInt 42) 10 (SFone 53 1024)
                               default_user_agent in
  let sys := start [Body page_one] in
  let run := search_for_companies config ["Acme"; "Globex"] 5 1 1 sys in
  run.2 = [] /\
  exists delta, trace run.1 = trace sys ++ delta /\ requests delta = 0%nat.
Proof.
  intros config sys run.
  apply (template_not_a_string_finds_nothing config ["Acme"; "Globex"] 5 1 1 sys).
  intros template. discriminate.
Defined.

Lemma built_url_has_three_fields_witness :
  let run := _build_search_url default_config "Acme & Co" 2 5 (start []) in
  run.2 = Ok "https://www.bing.com/search?q=site%3Alinkedin.com%2Fcompany+Acme+%26+Co&first=6&count=5" /\
  exists query qs,
    format_company (query_template default_config) "Acme & Co" = Ok query /\
    "https://www.bing.com/search?q=site%3Alinkedin.com%2Fcompany+Acme+%26+Co&first=6&count=5"
    = fstring (search_engine default_config) +:+ "?" +:+ qs /\
    split "&" qs = ["q=" +:+ quote_plus query;
                    "first=" +:+ pretty (calculate_offset 2 5 + 1);
                    "count=" +:+ pretty 5].
Proof.
  intros run.
  assert (Hrun : run = (run.1, Ok "https://www.bing.com/search?q=site%3Alinkedin.com%2Fcompany+Acme+%26+Co&first=6&count=5"))
    by (vm_compute; reflexivity).
  split; [rewrite Hrun; reflexivity |].
  destruct (built_url_has_three_fields default_config "Acme & Co" 2 5
              (start []) run.1 _ Hrun) as [query [qs [Hq [Hurl [Hsplit _]]]]].
  exists query, qs. split; [exact Hq |]. split; [exact Hurl | exact Hsplit].
Defined.

Lemma names_read_are_searched_as_lines_witness :
  let lines := ["  Acme "; "   "; ""; "Globex"] in
  let sys := start [Body page_one] in
  read_company_names (Readable lines) = inr ["Acme"; "Globex"] /\
  search_for_companies default_config ["Acme"; "Globex"] 5 1 1 sys
  = search_for_companies default_config lines 5 1 1 sys.
Proof.
  intros lines sys.
  assert (Hread : read_company_names (Readable lines) = inr ["Acme"; "Globex"])
    by (vm_compute; reflexivity).
  split; [exact Hread |].
  apply (names_read_are_searched_as_lines default_config lines _ 5 1 1 sys Hread).
Defined.

End MoreExamples.

(** ** The host test *)

Section HostFacts.
Import PyStr Urllib UrlShape ResultParser Claims.
Context `{UrllibExt}.
#[local] Arguments String.append !_ _ / : simpl nomatch.

Lemma check_netloc_no_bracket (nl : string) :
  has_char "[" nl = false -> has_char "]" nl = false -> check_netloc nl = true.
Proof. intros Hl Hr. unfold check_netloc. rewrite Hl, Hr. reflexivity. Qed.

(** [urlsplit] on an https URL with a query and no fragment. *)
Lemma urlsplit_https_query (nl url q : string) :
  forall_chars is_netloc_char nl = true ->
  check_netloc nl = true ->
  forall_chars is_path_char url = true ->
  startswith url "/" = true ->
  forall_chars is_safe_char q = true ->
  has_char "#" q = false ->
  urlsplit ("https://" +:+ nl +:+ url +:+ String "?" q)
  = Ok (mkSplitResult "https" nl url q "").
Proof.
  intros Hnl Hcheck Hpath Hstart Hq Hqhash.
  assert (Hsafe_nl : forall_chars is_safe_char nl = true).
  { eapply forall_chars_impl, Hnl. intros c. unfold is_netloc_char.
    intros [Hc _]%andb_true_iff. exact Hc. }
  assert (Hsafe_path : forall_chars is_safe_char url = true).
  { eapply forall_chars_impl, Hpath. intros c. unfold is_path_char.
    intros [[Hc _]%andb_true_iff _]%andb_true_iff. exact Hc. }
  assert (Hnodelim : forall_chars (fun c => negb (is_netloc_delim c)) nl = true).
  { eapply forall_chars_impl, Hnl. intros c. unfold is_netloc_char.
    intros [_ Hc]%andb_true_iff. exact Hc. }
  set (tail := url +:+ String "?" q).
  assert (Htail : forall_chars is_safe_char tail = true).
  { unfold tail. rewrite forall_chars_app, Hsafe_path. cbn [forall_chars].
    rewrite Hq. reflexivity. }
  assert (Htail_start : exists c r, tail = String c r /\ is_netloc_delim c = true).
  { destruct (prefix_app _ _ Hstart) as [url' Hurl]. unfold tail. rewrite Hurl.
    exists "/"%char. eexists. split; reflexivity. }
  assert (Hnohash : has_char "#" tail = false).
  { unfold tail. rewrite has_char_app.
    rewrite (forall_chars_has_char is_path_char "#" url eq_refl Hpath).
    cbn [has_char orb]. exact Hqhash. }
  assert (Hnoquest : has_char "?" url = false).
  { apply (forall_chars_has_char is_path_char); [reflexivity | exact Hpath]. }
  rewrite urlsplit_eq. cbn zeta.
  change ("https://" +:+ nl +:+ tail)
    with ("https" +:+ String ":" ("//" +:+ nl +:+ tail)).
  assert (Hl : lstrip is_c0_or_space ("https" +:+ String ":" ("//" +:+ nl +:+ tail))
               = "https" +:+ String ":" ("//" +:+ nl +:+ tail)) by reflexivity.
  rewrite Hl, filter_chars_id.
  2:{ rewrite forall_chars_app. simpl. rewrite forall_chars_app, Hsafe_nl.
      exact Htail. }
  rewrite split_scheme_rebuilt by (reflexivity || discriminate).
  cbn [fst snd].
  assert (Hst : startswith ("//" +:+ nl +:+ tail) "//" = true)
    by apply (prefix_of_app "//").
  assert (Hsplit : _splitnetloc ("//" +:+ nl +:+ tail) = (nl, tail)).
  { simpl. apply span_app; [exact Hnodelim |]. right.
    destruct Htail_start as [c [r [-> Hc]]]. exists c, r.
    split; [reflexivity |]. rewrite Hc. reflexivity. }
  rewrite Hst, Hsplit. cbn [fst snd]. rewrite Hcheck. cbn [negb andb].
  rewrite (before_id "#" _ Hnohash). unfold before, after.
  rewrite (split1_none "#" _ Hnohash). unfold tail.
  rewrite (split1_app "?" _ _ Hnoquest). reflexivity.
Qed.

(** C10. The host test is substring containment and nothing more.  An
    https URL with a network location [host], a path without parameters
    and a query is accepted exactly when [host] contains "linkedin.com"
    somewhere, at its start, in its middle or at its end, and the path
    contains "/company/"; the canonical link then stays on [host], which
    need not be linkedin.com nor one of its subdomains.  The claim's
    example, host "linkedin.com.evil.example", is one such case. *)
Theorem foreign_host_with_domain_substring_accepted (host path query : string) :
  forall_chars is_netloc_char host = true ->
  has_char "[" host = false ->
  has_char "]" host = false ->
  forall_chars is_path_char path = true ->
  startswith path "/" = true ->
  has_char ";" path = false ->
  forall_chars is_safe_char query = true ->
  has_char "#" query = false ->
  let raw_url := "https://" +:+ host +:+ path +:+ "?" +:+ query in
  urlparse raw_url = Ok (mkParseResult "https" host path "" query "") /\
  _normalize_linkedin_url raw_url
  = (if contains "linkedin.com" host && contains "/company/" path
     then Ok (Some ("https://" +:+ host +:+ rstrip "/" path))
     else Ok None) /\
  (contains "linkedin.com" host = true -> contains "/company/" path = true ->
   exists s, _normalize_linkedin_url raw_url = Ok (Some s) /\
             startswith s ("https://" +:+ host +:+ "/") = true).
Proof.
  intros Hhost Hlb Hrb Hpath Hstart Hsemi Hquery Hhash raw_url.
  pose proof (check_netloc_no_bracket host Hlb Hrb) as Hcheck.
  assert (Hparse : urlparse raw_url = Ok (mkParseResult "https" host path "" query "")).
  { unfold urlparse, raw_url.
    change ("?" +:+ query) with (String "?" query).
    rewrite (urlsplit_https_query host path query Hhost Hcheck Hpath Hstart
               Hquery Hhash).
    cbn [mbind result_bind s_scheme s_netloc s_path s_query s_fragment].
    rewrite Hsemi, andb_false_r. reflexivity. }
  assert (Hnorm : _normalize_linkedin_url raw_url
                  = if contains "linkedin.com" host && contains "/company/" path
                    then Ok (Some ("https://" +:+ host +:+ rstrip "/" path))
                    else Ok None).
  { unfold _normalize_linkedin_url, select_candidate.
    assert (Hne : String.eqb raw_url "" = false) by reflexivity.
    rewrite Hne, Hparse. cbn [mbind result_bind].
    assert (Hhttp : startswith raw_url "http" = true) by reflexivity.
    unfold is_redirect_wrapper. rewrite Hhttp, andb_false_r.
    cbn [mbind result_bind]. unfold canonical_of. cbn [netloc Urllib.path].
    destruct (contains "linkedin.com" host) eqn:Hdom; cbn [negb andb];
      [| reflexivity].
    destruct (contains "/company/" path) eqn:Hmark; cbn [negb]; [| reflexivity].
    assert (Hhost_ne : host <> "") by (intros E; rewrite E in Hdom; discriminate).
    rewrite strip_trailing_slashes_rstrip, clean_url_netloc;
      cbn [scheme netloc Urllib.path params]; [| exact Hhost_ne | right; exact Hstart].
    unfold joined_path. cbn [String.eqb].
    change (scheme_prefix "https") with "https://".
    assert (Hq : rstrip "/" path <> "").
    { intros E. apply rstrip_empty_all in E.
      rewrite (contains_not_all_slashes _ Hmark) in E. discriminate. }
    rewrite <- append_assoc, (rstrip_app "/" _ _ Hq), append_assoc. reflexivity. }
  split; [exact Hparse |]. split; [exact Hnorm |].
  intros Hdom Hmark. rewrite Hnorm, Hdom, Hmark. cbn [andb].
  eexists. split; [reflexivity |].
  destruct (prefix_app _ _ Hstart) as [rest Hrest].
  assert (Hq : rstrip "/" path <> "").
  { intros E. apply rstrip_empty_all in E.
    rewrite (contains_not_all_slashes _ Hmark) in E. discriminate. }
  assert (Hr : exists r, rstrip "/" path = "/" +:+ r).
  { destruct (rstrip_slashes path) as [n Hn].
    destruct (rstrip "/" path) as [| c r]; [congruence |].
    rewrite Hrest in Hn. simpl in Hn. injection Hn as <- _.
    exists r. reflexivity. }
  destruct Hr as [r ->]. unfold startswith.
  assert (E : "https://" +:+ host +:+ "/" +:+ r
              = ("https://" +:+ host +:+ "/") +:+ r).
  { simpl. do 8 f_equal. symmetry. apply append_assoc. }
  rewrite E. apply prefix_of_app.
Qed.

End HostFacts.

Section HostExamples.
Import PyStr Urllib ResultParser Scripted.

Lemma foreign_host_with_domain_substring_accepted_witness :
  _normalize_linkedin_url "https://linkedin.com.evil.example/company/acme?trk=1"
  = Ok (Some "https://linkedin.com.evil.example/company/acme") /\
  _normalize_linkedin_url "https://notlinkedin.com/company/acme/?trk=1"
  = Ok (Some "https://notlinkedin.com/company/acme") /\
  _normalize_linkedin_url "https://www.example.com/company/acme?trk=1"
  = Ok None.
Proof.
  split; [| split].
  - exact (proj1 (proj2 (foreign_host_with_domain_substring_accepted
                           "linkedin.com.evil.example" "/company/acme" "trk=1"
                           eq_refl eq_refl eq_refl eq_refl eq_refl eq_refl
                           eq_refl eq_refl))).
  - exact (proj1 (proj2 (foreign_host_with_domain_substring_accepted
                           "notlinkedin.com" "/company/acme/" "trk=1"
                           eq_refl eq_refl eq_refl eq_refl eq_refl eq_refl
                           eq_refl eq_refl))).
  - exact (proj1 (proj2 (foreign_host_with_domain_substring_accepted
                           "www.example.com" "/company/acme" "trk=1"
                           eq_refl eq_refl eq_refl eq_refl eq_refl eq_refl
                           eq_refl eq_refl))).
Defined.

End HostExamples.
